(** * backup_server: session store, authorization and resource gateway

    A shallow embedding of the Go packages [internal/auth],
    [internal/database] and [internal/handlers], with the properties the
    design document states about them.

    Conventions.
    - A Go [int] is a [Z]; the identifiers handled here are never the
      operand of an arithmetic operation, so no wrap-around is involved.
    - A [time.Time] is the instant in nanoseconds as a [Z], a
      [time.Duration] a number of nanoseconds.
    - A Go function that returns a value and an [error] returns a pair or
      a [result], see below.
    - The Go maps are [gmap]s, the SQL tables are lists of rows.
    - What a handler cannot compute by itself is an input of its model:
      the clock, the random source, the file system, and for each method
      of the database whether its statement fails. *)

From Stdlib Require Import ZArith NArith List Ascii String.
From Stdlib.Strings Require Import Byte.
From stdpp Require Import base gmap strings list sorting fin_maps pretty.

Local Open Scope string_scope.
Local Open Scope Z_scope.

(** ** Results of fallible calls *)

(** Go's [error]: [nil] or an error with its message. A function that
    returns a value next to its error, [(int, error)], is a pair and
    delivers the value it returns on failure too; a function that returns
    a pointer next to its error is a [result]: it returns a nil pointer
    with an error and every caller tests the error first. *)
Definition error := option string.
Definition nil : error := None.

Inductive result (A : Type) : Type :=
| Ok (a : A)
| Err (e : string).
Arguments Ok {A} a.
Arguments Err {A} e.

(** ** Package time *)

Module time.

Definition Time := Z.
Definition Duration := Z.

Definition Nanosecond : Duration := 1.
Definition Second : Duration := 1000000000 * Nanosecond.
Definition Minute : Duration := 60 * Second.
Definition Hour : Duration := 60 * Minute.

(** [t.Add(d)] *)
Definition Add (t : Time) (d : Duration) : Time := t + d.

(** [t.Before(u)]: the instant [t] is strictly earlier than [u]. *)
Definition Before (t u : Time) : bool := t <? u.

End time.

(** ** Package encoding/base64: [URLEncoding.EncodeToString]

    The padded encoding of RFC 4648 with the URL and filename safe
    alphabet. *)

Module base64.

Definition encodeURL : string :=
  "ABCDEFGHIJKLMNOPQRSTUVWXYZabcdefghijklmnopqrstuvwxyz0123456789-_".

Definition StdPadding : ascii := "="%char.

(** The character of a 6-bit value. *)
Definition enc (v : N) : ascii :=
  match String.get (N.to_nat v) encodeURL with
  | Some c => c
  | None => StdPadding
  end.

Definition bits (x : byte) : N := Byte.to_N x.

Fixpoint Encode (src : list byte) : string :=
  match src with
  | [] => ""
  | [x] =>
      String (enc (N.shiftr (bits x) 2))
     (String (enc (N.land (N.shiftl (bits x) 4) 63))
     (String StdPadding (String StdPadding "")))
  | [x; y] =>
      String (enc (N.shiftr (bits x) 2))
     (String (enc (N.land (N.lor (N.shiftl (bits x) 4) (N.shiftr (bits y) 4)) 63))
     (String (enc (N.land (N.shiftl (bits y) 2) 63))
     (String StdPadding "")))
  | x :: y :: z :: rest =>
      String (enc (N.shiftr (bits x) 2))
     (String (enc (N.land (N.lor (N.shiftl (bits x) 4) (N.shiftr (bits y) 4)) 63))
     (String (enc (N.land (N.lor (N.shiftl (bits y) 2) (N.shiftr (bits z) 6)) 63))
     (String (enc (N.land (bits z) 63)) (Encode rest))))
  end.

Definition EncodeToString (src : list byte) : string := Encode src.

End base64.

(** ** Package crypto/rand

    The system's random source: it is either unavailable, and every read
    fails, or it delivers as many bytes as the caller's buffer holds. *)

Module rand.

Record Source := {
  available : bool;
  stream : nat → byte
}.

(** [rand.Read(buf)] for a buffer of [n] bytes: the bytes read and the
    source advanced by [n]. *)
Definition Read (src : Source) (n : nat) : result (list byte) * Source :=
  if available src
  then (Ok (map (stream src) (seq 0 n)),
        {| available := true; stream := λ i, stream src (n + i)%nat |})
  else (Err "crypto/rand: random source unavailable", src).

End rand.

(** ** Package strconv *)

Module strconv.

Definition maxInt64 : Z := 9223372036854775807.
Definition minInt64 : Z := -9223372036854775808.

Definition ErrSyntax : string := "invalid syntax".
Definition ErrRange : string := "value out of range".

Definition digit (c : ascii) : option Z :=
  let n := Z.of_N (N_of_ascii c) in
  if (48 <=? n) && (n <=? 57) then Some (n - 48) else None.

Fixpoint digits (s : string) (acc : Z) : option Z :=
  match s with
  | EmptyString => Some acc
  | String c rest =>
      match digit c with
      | Some d => digits rest (10 * acc + d)
      | None => None
      end
  end.

(** [strconv.Atoi] on a 64-bit platform: an optional sign and one or
    more decimal digits; a value outside [int64] is returned clamped,
    with a range error. *)
Definition Atoi (s : string) : Z * error :=
  let '(neg, body) :=
    match s with
    | String "+" rest => (false, rest)
    | String "-" rest => (true, rest)
    | _ => (false, s)
    end in
  match body with
  | EmptyString => (0, Some ErrSyntax)
  | _ =>
      match digits body 0 with
      | None => (0, Some ErrSyntax)
      | Some n =>
          let v := if neg then - n else n in
          if v <? minInt64 then (minInt64, Some ErrRange)
          else if maxInt64 <? v then (maxInt64, Some ErrRange)
          else (v, nil)
      end
  end.

(** [strconv.FormatInt(n, 10)] *)
Definition FormatInt (n : Z) : string := pretty n.

End strconv.

(** ** Package database

    The SQLite database behind [database.DB]: the four tables of
    [createTables], and for every method of [DB] whether the driver fails
    its statement ([faults], the error it then reports). The connection is
    opened without the foreign-key pragma, so SQLite enforces neither the
    [REFERENCES] clauses nor their [ON DELETE CASCADE]. *)

Module database.

Record Group := {
  Group_ID : Z;
  Group_Name : string
}.

Record File := {
  File_ID : Z;
  File_Name : string;
  File_FilePath : string;
  File_GroupID : Z;
  File_Description : string
}.

Record User := {
  User_ID : Z;
  User_Username : string;
  User_Password : string;
  User_GroupIDs : list Z
}.

(** A row of [users]: [(id, username, password_hash)]. *)
Record users_row := {
  users_id : Z;
  users_username : string;
  users_password_hash : string
}.

(** A row of [user_groups]: [(user_id, group_id)]. *)
Definition user_groups_row : Type := Z * Z.

Inductive Method :=
| mGetGroupFileCount
| mDeleteGroup
| mGetUserByUsername
| mGetFileByID
| mUserHasAccessToGroup
| mGetAllGroups.

#[global] Instance Method_eq_dec : EqDecision Method.
Proof. solve_decision. Defined.

Record DB := {
  groups : list Group;
  users : list users_row;
  user_groups : list user_groups_row;
  files : list File;
  faults : Method → error
}.

Definition ErrNoRows : string := "sql: no rows in result set".

(** [SELECT COUNT( * ) ... WHERE] over a table. *)
Definition COUNT {A} (P : A → bool) (table : list A) : Z :=
  Z.of_nat (length (filter (λ row, P row = true) table)).

Definition DeleteGroup (db : DB) (groupID : Z) : error * DB :=
  match faults db mDeleteGroup with
  | Some e => (Some e, db)
  | None =>
      (nil,
       {| groups := filter (λ g, Group_ID g ≠ groupID) (groups db);
          users := users db;
          user_groups := user_groups db;
          files := files db;
          faults := faults db |})
  end.

Definition GetGroupFileCount (db : DB) (groupID : Z) : Z * error :=
  match faults db mGetGroupFileCount with
  | Some e => (0, Some e)
  | None => (COUNT (λ f, File_GroupID f =? groupID) (files db), nil)
  end.

Definition GetUserByUsername (db : DB) (username : string) : result User :=
  match faults db mGetUserByUsername with
  | Some e => Err e
  | None =>
      match find (λ u, String.eqb (users_username u) username) (users db) with
      | None => Err ErrNoRows
      | Some row =>
          Ok {| User_ID := users_id row;
                User_Username := users_username row;
                User_Password := users_password_hash row;
                User_GroupIDs :=
                  map snd (filter (λ ug, fst ug = users_id row) (user_groups db)) |}
      end
  end.

Section ValidateUser.

(** [bcrypt.CompareHashAndPassword(hash, password) == nil] *)
Variable CompareHashAndPassword : string → string → bool.

Definition ValidateUser (db : DB) (username password : string) : result User :=
  match GetUserByUsername db username with
  | Err e => Err e
  | Ok user =>
      if CompareHashAndPassword (User_Password user) password
      then Ok user
      else Err "invalid password"
  end.

End ValidateUser.

Definition GetFileByID (db : DB) (fileID : Z) : result File :=
  match faults db mGetFileByID with
  | Some e => Err e
  | None =>
      match find (λ f, File_ID f =? fileID) (files db) with
      | None => Err ErrNoRows
      | Some file => Ok file
      end
  end.

Definition UserHasAccessToGroup (db : DB) (userID groupID : Z) : bool * error :=
  match faults db mUserHasAccessToGroup with
  | Some e => (false, Some e)
  | None =>
      (0 <? COUNT (λ ug, (fst ug =? userID) && (snd ug =? groupID)) (user_groups db),
       nil)
  end.

(** [ORDER BY name]: SQLite's default collation compares byte by byte. *)
Definition name_le (g h : Group) : Prop :=
  String.leb (Group_Name g) (Group_Name h) = true.

#[global] Instance name_le_dec : RelDecision name_le.
Proof. intros g h. unfold name_le. apply _. Defined.

(** [GetAllGroups] as the callers see it that test the error before they
    use the rows ([isAdmin] and the handlers behind it): with an error the
    rows do not matter to them and are given as none. [GetAllGroupsRows],
    below, gives the rows that the method returns next to an error, for
    the caller that drops the error. *)
Definition GetAllGroups (db : DB) : list Group * error :=
  match faults db mGetAllGroups with
  | Some e => ([], Some e)
  | None => (merge_sort name_le (groups db), nil)
  end.

(** *** Further methods of [DB]

    These methods are not among those that [faults] lists: whether the
    driver fails their statement is their argument [fail], the error it
    then reports. The tables satisfy their [PRIMARY KEY] constraints: no
    two rows of [users], [groups] or [files] share an id. *)

#[global] Instance File_eq_dec : EqDecision File.
Proof. solve_decision. Defined.

Definition with_files (db : DB) (rows : list File) : DB :=
  {| groups := groups db;
     users := users db;
     user_groups := user_groups db;
     files := rows;
     faults := faults db |}.

(** [SELECT DISTINCT ... FROM files WHERE group_id IN (...)]; without
    group ids no statement is executed. *)
Definition GetFilesByGroupIDs (fail : error) (db : DB) (groupIDs : list Z)
    : list File * error :=
  match groupIDs with
  | [] => ([], nil)
  | _ =>
      match fail with
      | Some e => ([], Some e)
      | None =>
          (remove_dups (filter (λ f, File_GroupID f ∈ groupIDs) (files db)), nil)
      end
  end.

Definition UpdateFile (fail : error) (db : DB) (fileID : Z) (name filePath : string)
    (groupID : Z) (description : string) : error * DB :=
  match fail with
  | Some e => (Some e, db)
  | None =>
      (nil,
       with_files db
         (map (λ f, if File_ID f =? fileID
                    then {| File_ID := File_ID f;
                            File_Name := name;
                            File_FilePath := filePath;
                            File_GroupID := groupID;
                            File_Description := description |}
                    else f)
              (files db)))
  end.

Definition DeleteFile (fail : error) (db : DB) (fileID : Z) : error * DB :=
  match fail with
  | Some e => (Some e, db)
  | None => (nil, with_files db (filter (λ f, File_ID f ≠ fileID) (files db)))
  end.

(** [UpdateUser]: one transaction, rolled back as a whole when a statement
    fails. The [UPDATE] fails on the [UNIQUE] constraint of
    [users.username] when it gives the user the name of another user, an
    [INSERT] fails on the primary key of [user_groups] when [groupIDs]
    names a group twice. *)
Definition UpdateUser (fail : error) (db : DB) (userID : Z) (username : string)
    (groupIDs : list Z) : error * DB :=
  match fail with
  | Some e => (Some e, db)
  | None =>
      if existsb (λ u, users_id u =? userID) (users db)
         && existsb (λ u, negb (users_id u =? userID)
                          && String.eqb (users_username u) username)
                    (users db)
      then (Some "UNIQUE constraint failed: users.username", db)
      else if bool_decide (NoDup groupIDs)
      then (nil,
            {| groups := groups db;
               users :=
                 map (λ u, if users_id u =? userID
                           then {| users_id := users_id u;
                                   users_username := username;
                                   users_password_hash := users_password_hash u |}
                           else u)
                     (users db);
               user_groups :=
                 filter (λ ug, fst ug ≠ userID) (user_groups db)
                 ++ map (λ groupID, (userID, groupID)) groupIDs;
               files := files db;
               faults := faults db |})
      else (Some
              "UNIQUE constraint failed: user_groups.user_id, user_groups.group_id",
            db)
  end.

Definition DeleteUser (fail : error) (db : DB) (userID : Z) : error * DB :=
  match fail with
  | Some e => (Some e, db)
  | None =>
      (nil,
       {| groups := groups db;
          users := filter (λ u, users_id u ≠ userID) (users db);
          user_groups := user_groups db;
          files := files db;
          faults := faults db |})
  end.

(** [GetAllGroups] for a caller that uses the rows without testing the
    error. The method returns the rows it has read next to [rows.Err()]:
    when the iteration fails after [read] rows the caller holds those
    rows, the first [read] in the order of the statement; when the
    statement or a [Scan] fails it holds none, which is [read = 0]. *)
Definition GetAllGroupsRows (read : nat) (db : DB) : list Group * error :=
  match faults db mGetAllGroups with
  | Some e => (take read (merge_sort name_le (groups db)), Some e)
  | None => (merge_sort name_le (groups db), nil)
  end.

End database.

(** ** Package os: the files the server can reach

    A path either cannot be opened or names a file with its bytes;
    [Stat] on an open file can fail on its own. *)

Module os.

Record File := {
  Data : list byte;
  StatErr : error
}.

Definition FS := gmap string File.

Definition Open (fs : gmap string File) (name : string) : result File :=
  match fs !! name with
  | Some f => Ok f
  | None => Err ("open " +:+ name +:+ ": no such file or directory")
  end.

(** [f.Stat()], reduced to the [Size()] of the [FileInfo]. *)
Definition Stat (f : File) : result Z :=
  match StatErr f with
  | Some e => Err e
  | None => Ok (Z.of_nat (length (Data f)))
  end.

End os.

(** ** Package net/http, as far as the handlers use it *)

Module http.

Definition StatusOK : Z := 200.
Definition StatusSeeOther : Z := 303.
Definition StatusBadRequest : Z := 400.
Definition StatusForbidden : Z := 403.
Definition StatusNotFound : Z := 404.
Definition StatusMethodNotAllowed : Z := 405.
Definition StatusInternalServerError : Z := 500.

Definition MethodPost : string := "POST".

Record Cookie := {
  Name : string;
  Value : string;
  Path : string;
  HttpOnly : bool;
  MaxAge : Z;
  SameSiteStrict : bool
}.

(** A request: its method, its cookies and its query and form values. *)
Record Request := {
  Method : string;
  Cookies : list (string * string);
  Form : list (string * string)
}.

Definition assoc (key : string) (kvs : list (string * string)) : option string :=
  snd <$> find (λ kv, String.eqb (fst kv) key) kvs.

(** [r.URL.Query().Get(key)] and [r.FormValue(key)]: the first value of
    the key, the empty string when there is none. *)
Definition FormValue (r : Request) (key : string) : string :=
  default "" (assoc key (Form r)).

(** [r.Form[key]]: every value of the key, in the order of the form. *)
Definition FormValues (r : Request) (key : string) : list string :=
  map snd (filter (λ kv, fst kv = key) (Form r)).

(** [r.Cookie(name)] *)
Definition CookieOf (r : Request) (name : string) : result string :=
  match assoc name (Cookies r) with
  | Some v => Ok v
  | None => Err "http: named cookie not present"
  end.

(** What a handler writes to its [ResponseWriter]. *)
Inductive Response :=
| Error (msg : string) (code : Z)
| Redirect (url : string) (code : Z)
| ExecuteTemplate (name : string) (data : list (string * string))
| Copy (header : list (string * string)) (body : list byte).

Definition StatusCode (w : Response) : Z :=
  match w with
  | Error _ code => code
  | Redirect _ code => code
  | ExecuteTemplate _ _ => StatusOK
  | Copy _ _ => StatusOK
  end.

End http.

(** ** Package auth *)

Module auth.

Record Session := {
  UserID : Z;
  Username : string;
  GroupIDs : list Z;
  Expires : time.Time
}.

(** [SessionStore.sessions]; the mutex is not modelled, every operation
    below is one critical section. *)
Definition SessionStore := gmap string Session.

Definition NewSessionStore : gmap string Session := ∅.

Definition Create (s : gmap string Session) (src : rand.Source) (now : time.Time)
    (userID : Z) (username : string) (groupIDs : list Z)
    : result string * gmap string Session * rand.Source :=
  match rand.Read src 32 with
  | (Err e, src') => (Err e, s, src')
  | (Ok token, src') =>
      let sessionID := base64.EncodeToString token in
      (Ok sessionID,
       <[sessionID := {| UserID := userID;
                         Username := username;
                         GroupIDs := groupIDs;
                         Expires := time.Add now (24 * time.Hour) |}]> s,
       src')
  end.

Definition Get (s : gmap string Session) (sessionID : string) (now : time.Time)
    : option Session :=
  match s !! sessionID with
  | None => None
  | Some session =>
      if time.Before (Expires session) now then None else Some session
  end.

Definition Delete (s : gmap string Session) (sessionID : string)
    : gmap string Session :=
  delete sessionID s.

(** One tick of [cleanupExpired], the body of the [for range ticker.C]
    loop: it ranges over the entries of the map, in the order [order] that
    the runtime picks for this range, and deletes from the map as it goes.
    It only ever deletes the entry it is at, so the range reaches every
    entry of the map once: [order] is a permutation of its entries. *)
Definition cleanupExpired (order : list (string * Session))
    (s : gmap string Session) (now : time.Time) : gmap string Session :=
  foldl (λ sessions entry,
           if time.Before (Expires entry.2) now
           then delete entry.1 sessions
           else sessions)
        s order.

Definition GetSessionFromRequest (r : http.Request) : result string :=
  http.CookieOf r "session_id".

Definition SetSessionCookie (sessionID : string) : http.Cookie :=
  {| http.Name := "session_id";
     http.Value := sessionID;
     http.Path := "/";
     http.HttpOnly := true;
     http.MaxAge := 86400;
     http.SameSiteStrict := true |}.

Definition ClearSessionCookie : http.Cookie :=
  {| http.Name := "session_id";
     http.Value := "";
     http.Path := "/";
     http.HttpOnly := true;
     http.MaxAge := -1;
     http.SameSiteStrict := false |}.

End auth.

(** ** Package handlers

    A handler returns what it writes to the response, the state it leaves
    behind where it changes one, and the calls it made on the database and
    on the file system, in the order it made them. *)

Module handlers.

Inductive Event :=
| Query (m : database.Method)
| OsOpen (name : string)
| FileStat (name : string)
| FileClose (name : string)
| IoCopy (name : string)
| LogPrintf (msg : string).

Definition is_fs (e : Event) : bool :=
  match e with
  | OsOpen _ | FileStat _ | FileClose _ | IoCopy _ => true
  | Query _ | LogPrintf _ => false
  end.

Definition is_access_check (e : Event) : bool :=
  match e with
  | Query database.mUserHasAccessToGroup => true
  | _ => false
  end.

(** [AuthMiddleware]: the session of the request, or the redirect to the
    login page. *)
Definition AuthMiddleware (sessions : gmap string auth.Session) (now : time.Time)
    (r : http.Request) : http.Response + auth.Session :=
  match auth.GetSessionFromRequest r with
  | Err _ => inl (http.Redirect "/" http.StatusSeeOther)
  | Ok sessionID =>
      match auth.Get sessions sessionID now with
      | None => inl (http.Redirect "/" http.StatusSeeOther)
      | Some session => inr session
      end
  end.

Definition isAdmin (db : database.DB) (session : auth.Session) : bool :=
  let '(groups, err) := database.GetAllGroups db in
  match err with
  | Some _ => false
  | None =>
      existsb (λ groupID,
                 existsb (λ g, (database.Group_ID g =? groupID)
                               && String.eqb (database.Group_Name g) "admins")
                         groups)
              (auth.GroupIDs session)
  end.


(** The admin check of [AdminPage], which is not [isAdmin]: the loop that
    computes [hasAdminAccess]. It drops the errors of both queries: a
    failed access check counts as no access, and of a failed read of the
    groups it uses the rows read so far, [read i] of them in the call it
    makes for the [i]-th group id of the session. *)
Definition AdminPage_hasAdminAccess (read : nat → nat) (db : database.DB)
    (session : auth.Session) : bool :=
  existsb (λ '(i, groupID),
             (database.UserHasAccessToGroup db (auth.UserID session) groupID).1
             && existsb (λ g, (database.Group_ID g =? groupID)
                              && String.eqb (database.Group_Name g) "admins")
                        (database.GetAllGroupsRows (read i) db).1)
          (imap pair (auth.GroupIDs session)).

Section Handler.

(** [bcrypt.CompareHashAndPassword], [url.PathEscape] and
    [filepath.Base] *)
Variable CompareHashAndPassword : string → string → bool.
Variable PathEscape : string → string.
Variable Base : string → string.

Definition Login (db : database.DB) (sessions : gmap string auth.Session)
    (src : rand.Source) (now : time.Time) (r : http.Request)
    : http.Response * list http.Cookie * gmap string auth.Session * rand.Source :=
  if negb (String.eqb (http.Method r) http.MethodPost)
  then (http.Error "Method not allowed" http.StatusMethodNotAllowed,
        [], sessions, src)
  else
    let username := http.FormValue r "username" in
    let password := http.FormValue r "password" in
    match database.ValidateUser CompareHashAndPassword db username password with
    | Err _ =>
        (http.ExecuteTemplate "login.html" [("Error", "Invalid credentials")],
         [], sessions, src)
    | Ok user =>
        match auth.Create sessions src now (database.User_ID user)
                (database.User_Username user) (database.User_GroupIDs user) with
        | (Err _, sessions', src') =>
            (http.Error "Failed to create session" http.StatusInternalServerError,
             [], sessions', src')
        | (Ok sessionID, sessions', src') =>
            (http.Redirect "/files" http.StatusSeeOther,
             [auth.SetSessionCookie sessionID], sessions', src')
        end
    end.

Definition Logout (sessions : gmap string auth.Session) (r : http.Request)
    : http.Response * list http.Cookie * gmap string auth.Session :=
  let sessions' :=
    match auth.GetSessionFromRequest r with
    | Ok sessionID => auth.Delete sessions sessionID
    | Err _ => sessions
    end in
  (http.Redirect "/" http.StatusSeeOther, [auth.ClearSessionCookie], sessions').

Definition DownloadFile (db : database.DB) (fs : gmap string os.File)
    (session : auth.Session) (r : http.Request)
    : http.Response * list Event :=
  let fileIDStr := http.FormValue r "id" in
  match strconv.Atoi fileIDStr with
  | (_, Some _) => (http.Error "Invalid file ID" http.StatusBadRequest, [])
  | (fileID, None) =>
  match database.GetFileByID db fileID with
  | Err _ =>
      (http.Error "File not found" http.StatusNotFound,
       [Query database.mGetFileByID])
  | Ok file =>
  match database.UserHasAccessToGroup db (auth.UserID session)
          (database.File_GroupID file) with
  | (_, Some _) =>
      (http.Error "Failed to check access" http.StatusInternalServerError,
       [Query database.mGetFileByID; Query database.mUserHasAccessToGroup])
  | (hasAccess, None) =>
  if negb hasAccess
  then (http.Error "Access denied" http.StatusForbidden,
        [Query database.mGetFileByID; Query database.mUserHasAccessToGroup])
  else
  let path := database.File_FilePath file in
  match os.Open fs path with
  | Err e =>
      (http.Error "File not accessible" http.StatusInternalServerError,
       [Query database.mGetFileByID; Query database.mUserHasAccessToGroup;
        OsOpen path;
        LogPrintf ("Failed to open file " +:+ path +:+ ": " +:+ e)])
  | Ok f =>
  match os.Stat f with
  | Err _ =>
      (http.Error "Failed to read file info" http.StatusInternalServerError,
       [Query database.mGetFileByID; Query database.mUserHasAccessToGroup;
        OsOpen path; FileStat path; FileClose path])
  | Ok size =>
      (http.Copy
         [("Content-Disposition",
           "attachment; filename*=UTF-8''"
             +:+ PathEscape (Base (database.File_Name file)));
          ("Content-Type", "application/octet-stream");
          ("Content-Length", strconv.FormatInt size)]
         (os.Data f),
       [Query database.mGetFileByID; Query database.mUserHasAccessToGroup;
        OsOpen path; FileStat path; IoCopy path; FileClose path])
  end end end end end.

Definition AdminDeleteGroup (db : database.DB) (session : auth.Session)
    (r : http.Request) : http.Response * database.DB * list Event :=
  if negb (String.eqb (http.Method r) http.MethodPost)
  then (http.Error "Method not allowed" http.StatusMethodNotAllowed, db, [])
  else if negb (isAdmin db session)
  then (http.Error "Access denied" http.StatusForbidden, db,
        [Query database.mGetAllGroups])
  else
    let '(groupID, _) := strconv.Atoi (http.FormValue r "id") in
    let '(fileCount, _) := database.GetGroupFileCount db groupID in
    if 0 <? fileCount
    then (http.Redirect
            "/admin/groups?error=Cannot+delete+group+with+files+assigned"
            http.StatusSeeOther,
          db,
          [Query database.mGetAllGroups; Query database.mGetGroupFileCount])
    else
      match database.DeleteGroup db groupID with
      | (Some e, db') =>
          (http.Redirect "/admin/groups?error=Failed+to+delete+group"
             http.StatusSeeOther,
           db',
           [Query database.mGetAllGroups; Query database.mGetGroupFileCount;
            Query database.mDeleteGroup;
            LogPrintf ("Failed to delete group: " +:+ e)])
      | (None, db') =>
          (http.Redirect "/admin/groups?success=Group+deleted+successfully"
             http.StatusSeeOther,
           db',
           [Query database.mGetAllGroups; Query database.mGetGroupFileCount;
            Query database.mDeleteGroup])
      end.

Definition ServeWorldFile (db : database.DB) (fs : gmap string os.File)
    (session : auth.Session) (r : http.Request)
    : http.Response * list Event :=
  let fileIDStr := http.FormValue r "id" in
  match strconv.Atoi fileIDStr with
  | (_, Some _) => (http.Error "Invalid file ID" http.StatusBadRequest, [])
  | (fileID, None) =>
  match database.GetFileByID db fileID with
  | Err _ =>
      (http.Error "File not found" http.StatusNotFound,
       [Query database.mGetFileByID])
  | Ok file =>
  match database.UserHasAccessToGroup db (auth.UserID session)
          (database.File_GroupID file) with
  | (_, Some _) =>
      (http.Error "Access denied" http.StatusForbidden,
       [Query database.mGetFileByID; Query database.mUserHasAccessToGroup])
  | (hasAccess, None) =>
  if negb hasAccess
  then (http.Error "Access denied" http.StatusForbidden,
        [Query database.mGetFileByID; Query database.mUserHasAccessToGroup])
  else
  let path := database.File_FilePath file in
  match os.Open fs path with
  | Err e =>
      (http.Error "File not accessible" http.StatusInternalServerError,
       [Query database.mGetFileByID; Query database.mUserHasAccessToGroup;
        OsOpen path;
        LogPrintf ("Failed to open world file " +:+ path +:+ ": " +:+ e)])
  | Ok f =>
  match os.Stat f with
  | Err _ =>
      (http.Error "Failed to read file info" http.StatusInternalServerError,
       [Query database.mGetFileByID; Query database.mUserHasAccessToGroup;
        OsOpen path; FileStat path; FileClose path])
  | Ok size =>
      (http.Copy
         [("Content-Type", "application/octet-stream");
          ("Content-Length", strconv.FormatInt size);
          ("Cache-Control", "no-cache")]
         (os.Data f),
       [Query database.mGetFileByID; Query database.mUserHasAccessToGroup;
        OsOpen path; FileStat path; IoCopy path; FileClose path])
  end end end end end.

(** The handlers below return the response and the database they leave;
    [fail] is the driver's failure of the one statement they execute. *)
Definition AdminEditFile (fail : error) (db : database.DB) (session : auth.Session)
    (r : http.Request) : http.Response * database.DB :=
  if negb (String.eqb (http.Method r) http.MethodPost)
  then (http.Error "Method not allowed" http.StatusMethodNotAllowed, db)
  else if negb (isAdmin db session)
  then (http.Error "Access denied" http.StatusForbidden, db)
  else
    let '(fileID, _) := strconv.Atoi (http.FormValue r "id") in
    let name := http.FormValue r "name" in
    let filePath := http.FormValue r "file_path" in
    let '(groupID, _) := strconv.Atoi (http.FormValue r "group_id") in
    let description := http.FormValue r "description" in
    match database.UpdateFile fail db fileID name filePath groupID description with
    | (Some _, db') =>
        (http.Redirect "/admin/files?error=Failed+to+update+file"
           http.StatusSeeOther, db')
    | (None, db') =>
        (http.Redirect "/admin/files?success=File+updated+successfully"
           http.StatusSeeOther, db')
    end.

Definition AdminDeleteFile (fail : error) (db : database.DB) (session : auth.Session)
    (r : http.Request) : http.Response * database.DB :=
  if negb (String.eqb (http.Method r) http.MethodPost)
  then (http.Error "Method not allowed" http.StatusMethodNotAllowed, db)
  else if negb (isAdmin db session)
  then (http.Error "Access denied" http.StatusForbidden, db)
  else
    let '(fileID, _) := strconv.Atoi (http.FormValue r "id") in
    match database.DeleteFile fail db fileID with
    | (Some _, db') =>
        (http.Redirect "/admin/files?error=Failed+to+delete+file"
           http.StatusSeeOther, db')
    | (None, db') =>
        (http.Redirect "/admin/files?success=File+deleted+successfully"
           http.StatusSeeOther, db')
    end.

Definition AdminEditUser (fail : error) (db : database.DB) (session : auth.Session)
    (r : http.Request) : http.Response * database.DB :=
  if negb (String.eqb (http.Method r) http.MethodPost)
  then (http.Error "Method not allowed" http.StatusMethodNotAllowed, db)
  else if negb (isAdmin db session)
  then (http.Error "Access denied" http.StatusForbidden, db)
  else
    let '(userID, _) := strconv.Atoi (http.FormValue r "id") in
    let username := http.FormValue r "username" in
    let groupIDStrs := http.FormValues r "group_ids" in
    let groupIDs := map (λ gidStr, (strconv.Atoi gidStr).1) groupIDStrs in
    match groupIDs with
    | [] =>
        (http.Redirect
           "/admin/users?error=User+must+belong+to+at+least+one+group"
           http.StatusSeeOther, db)
    | _ =>
        match database.UpdateUser fail db userID username groupIDs with
        | (Some _, db') =>
            (http.Redirect "/admin/users?error=Failed+to+update+user"
               http.StatusSeeOther, db')
        | (None, db') =>
            (http.Redirect "/admin/users?success=User+updated+successfully"
               http.StatusSeeOther, db')
        end
    end.

Definition AdminDeleteUser (fail : error) (db : database.DB) (session : auth.Session)
    (r : http.Request) : http.Response * database.DB :=
  if negb (String.eqb (http.Method r) http.MethodPost)
  then (http.Error "Method not allowed" http.StatusMethodNotAllowed, db)
  else if negb (isAdmin db session)
  then (http.Error "Access denied" http.StatusForbidden, db)
  else
    let '(userID, _) := strconv.Atoi (http.FormValue r "id") in
    if userID =? auth.UserID session
    then (http.Redirect "/admin/users?error=Cannot+delete+your+own+account"
            http.StatusSeeOther, db)
    else
      match database.DeleteUser fail db userID with
      | (Some _, db') =>
          (http.Redirect "/admin/users?error=Failed+to+delete+user"
             http.StatusSeeOther, db')
      | (None, db') =>
          (http.Redirect "/admin/users?success=User+deleted+successfully"
             http.StatusSeeOther, db')
      end.

End Handler.

End handlers.

(** ** Sample data: the database of [cmd/init] described in the README *)

Module sample.

Definition admins : database.Group :=
  {| database.Group_ID := 1; database.Group_Name := "admins" |}.
Definition usersGroup : database.Group :=
  {| database.Group_ID := 2; database.Group_Name := "users" |}.

Definition hosts : database.File :=
  {| database.File_ID := 1;
     database.File_Name := "hosts";
     database.File_FilePath := "/etc/hosts";
     database.File_GroupID := 1;
     database.File_Description := "System hosts file" |}.
Definition bashrc : database.File :=
  {| database.File_ID := 2;
     database.File_Name := "bashrc";
     database.File_FilePath := "/home/user/.bashrc";
     database.File_GroupID := 2;
     database.File_Description := "Shell configuration" |}.

Definition hash (password : string) : string := "$2a$10$" +:+ password.
Definition CompareHashAndPassword (h password : string) : bool :=
  String.eqb h (hash password).

Definition no_faults : database.Method → error := λ _, nil.

Definition db : database.DB :=
  {| database.groups := [admins; usersGroup];
     database.users :=
       [ {| database.users_id := 1; database.users_username := "admin";
            database.users_password_hash := hash "admin" |};
         {| database.users_id := 2; database.users_username := "user1";
            database.users_password_hash := hash "password" |};
         {| database.users_id := 3; database.users_username := "user2";
            database.users_password_hash := hash "password" |} ];
     database.user_groups := [(1, 1); (2, 2); (3, 2); (3, 1)];
     database.files := [hosts; bashrc];
     database.faults := no_faults |}.

(** The same tables behind a connection on which one method fails. *)
Definition failing (m : database.Method) (d : database.DB) : database.DB :=
  {| database.groups := database.groups d;
     database.users := database.users d;
     database.user_groups := database.user_groups d;
     database.files := database.files d;
     database.faults :=
       λ m', if decide (m' = m) then Some "database is locked"
             else database.faults d m' |}.

(** [db] after an administrator has moved [user1] from [users] to
    [admins]. *)
Definition db_user1_moved : database.DB :=
  {| database.groups := database.groups db;
     database.users := database.users db;
     database.user_groups := [(1, 1); (2, 1); (3, 2); (3, 1)];
     database.files := database.files db;
     database.faults := no_faults |}.

Definition fs : gmap string os.File :=
  {[ "/home/user/.bashrc" :=
       {| os.Data := [x6c; x73; x0a]%byte; os.StatErr := nil |} ]}.

Definition src : rand.Source :=
  {| rand.available := true;
     rand.stream := λ i, default x00%byte (Byte.of_nat (i mod 256)) |}.

(** The sessions of [admin] and of [user1], as [Login] creates them at
    instant [0]. *)
Definition adminSession : auth.Session :=
  {| auth.UserID := 1; auth.Username := "admin"; auth.GroupIDs := [1];
     auth.Expires := 24 * time.Hour |}.
Definition user1Session : auth.Session :=
  {| auth.UserID := 2; auth.Username := "user1"; auth.GroupIDs := [2];
     auth.Expires := 24 * time.Hour |}.

Definition get (id : string) : http.Request :=
  {| http.Method := "GET"; http.Cookies := []; http.Form := [("id", id)] |}.
Definition post (form : list (string * string)) : http.Request :=
  {| http.Method := "POST"; http.Cookies := []; http.Form := form |}.

End sample.

(** ** Tactics for traces

    [not_in_trace H] closes a goal whose hypothesis [H] puts an event in a
    trace that holds no event of its kind; [opened_here H] finds the one
    [OsOpen] of a trace. *)

Ltac not_in_trace H :=
  repeat (apply elem_of_cons in H as [H|H]; [discriminate H|]);
  by apply elem_of_nil in H.

Ltac opened_here H :=
  repeat (apply elem_of_cons in H as [H|H]; [try discriminate H|]);
  [injection H as <- | by apply elem_of_nil in H].

(** * Properties *)

(** ** The session store *)

Section SessionStore.

Implicit Types (s acc : gmap string auth.Session) (now t : time.Time).
Implicit Types (id tok : string) (session : auth.Session).

Lemma Get_Some s id now session :
  auth.Get s id now = Some session ↔
  s !! id = Some session ∧ now <= auth.Expires session.
Proof.
  unfold auth.Get, time.Before.
  destruct (s !! id) as [x|] eqn:Hx.
  - destruct (Z.ltb_spec (auth.Expires x) now); split.
    + discriminate.
    + intros [[= ->] ?]. lia.
    + intros [= ->]. split; [done | lia].
    + by intros [[= ->] _].
  - split; [discriminate | by intros [? _]].
Qed.

Lemma Get_None s id now :
  auth.Get s id now = None ↔
  s !! id = None ∨ ∃ session, s !! id = Some session ∧ auth.Expires session < now.
Proof.
  unfold auth.Get, time.Before.
  destruct (s !! id) as [x|] eqn:Hx.
  - destruct (Z.ltb_spec (auth.Expires x) now); split.
    + intros _. right. by exists x.
    + done.
    + discriminate.
    + intros [?|(y & [= <-] & ?)]; [done | lia].
  - split; [by left | done].
Qed.

(** The range loop of [cleanupExpired] never adds an entry. *)
Lemma cleanup_range_None order acc now id :
  acc !! id = None → auth.cleanupExpired order acc now !! id = None.
Proof.
  revert acc. induction order as [|[k x] order IH]; intros acc Hacc; [done|].
  simpl. apply IH. destruct (time.Before (auth.Expires x) now); [|done].
  apply lookup_delete_None. by right.
Qed.

(** It removes the entry of a token that it meets with an expired
    session. *)
Lemma cleanup_range_expired order acc now id session :
  (id, session) ∈ order → time.Before (auth.Expires session) now = true →
  auth.cleanupExpired order acc now !! id = None.
Proof.
  revert acc. induction order as [|[k x] order IH]; intros acc Hin Hexp.
  - by apply elem_of_nil in Hin.
  - apply elem_of_cons in Hin as [[= <- <-]|Hin]; simpl.
    + rewrite Hexp. apply cleanup_range_None, lookup_delete_eq.
    + by apply IH.
Qed.

(** It keeps the entry of a token that it meets with unexpired sessions
    only, or not at all. *)
Lemma cleanup_range_kept order acc now id :
  (∀ session, (id, session) ∈ order →
              time.Before (auth.Expires session) now = false) →
  auth.cleanupExpired order acc now !! id = acc !! id.
Proof.
  revert acc. induction order as [|[k x] order IH]; intros acc Hall; [done|].
  simpl. rewrite IH.
  - destruct (time.Before (auth.Expires x) now) eqn:Hexp; [|done].
    apply lookup_delete_ne. intros ->.
    rewrite (Hall x) in Hexp; [done | apply list_elem_of_here].
  - intros session Hin. apply Hall. by apply list_elem_of_further.
Qed.

Lemma Create_inv s src now userID username groupIDs r s' src' :
  auth.Create s src now userID username groupIDs = (r, s', src') →
  (rand.available src = false ∧ s' = s ∧ src' = src ∧ ∃ e, r = Err e) ∨
  (rand.available src = true ∧
   ∃ token, rand.Read src 32 = (Ok token, src') ∧ length token = 32%nat ∧
     r = Ok (base64.EncodeToString token) ∧
     s' = <[base64.EncodeToString token :=
              {| auth.UserID := userID; auth.Username := username;
                 auth.GroupIDs := groupIDs;
                 auth.Expires := now + 86400 * 1000000000 |}]> s).
Proof.
  unfold auth.Create, rand.Read.
  destruct (rand.available src); intros [= <- <- <-].
  - right. split; [done|]. eexists. repeat split.
  - left. repeat split. by eexists.
Qed.

(** C2 as stated fails at the expiry instant itself: the session that
    [user1] obtains at instant 0 expires at 24 h, and resolving its token
    at exactly 24 h returns the session, not absent. *)
Lemma Get_at_expiry_counterexample :
  (auth.Create ∅ sample.src 0 2 "user1" [2]).1.1
    = Ok "AAECAwQFBgcICQoLDA0ODxAREhMUFRYXGBkaGxwdHh8=" ∧
  auth.Expires sample.user1Session = 24 * time.Hour ∧
  auth.Get (auth.Create ∅ sample.src 0 2 "user1" [2]).1.2
    "AAECAwQFBgcICQoLDA0ODxAREhMUFRYXGBkaGxwdHh8=" (24 * time.Hour)
    = Some sample.user1Session.
Proof.
  split; [reflexivity|]. split; [reflexivity|].
  apply Get_Some. split; [apply lookup_insert_eq | reflexivity].
Qed.

(** C2, amended: a session created at [now] is returned by [Get] at every
    instant up to and including [now + 24h], its expiry, and is absent
    at every later instant; a token with no entry in the store is absent
    at every instant. *)
Theorem Get_created s src now userID username groupIDs tok s' src' t :
  auth.Create s src now userID username groupIDs = (Ok tok, s', src') →
  let session :=
    {| auth.UserID := userID; auth.Username := username;
       auth.GroupIDs := groupIDs;
       auth.Expires := time.Add now (24 * time.Hour) |} in
  (t <= auth.Expires session → auth.Get s' tok t = Some session) ∧
  (auth.Expires session < t → auth.Get s' tok t = None) ∧
  (∀ unknown, s' !! unknown = None → auth.Get s' unknown t = None).
Proof.
  intros Hc session.
  apply Create_inv in Hc as [(_ & _ & _ & e & [=])|(_ & token & _ & _ & [= ->] & ->)].
  split; [|split].
  - intros Ht. apply Get_Some. by rewrite lookup_insert_eq.
  - intros Ht. apply Get_None. right. exists session.
    by rewrite lookup_insert_eq.
  - intros unknown Hu. apply Get_None. by left.
Qed.

Lemma Get_created_witness :
  auth.Get (auth.Create ∅ sample.src 0 2 "user1" [2]).1.2
    "AAECAwQFBgcICQoLDA0ODxAREhMUFRYXGBkaGxwdHh8=" 5
    = Some sample.user1Session ∧
  auth.Get (auth.Create ∅ sample.src 0 2 "user1" [2]).1.2
    "AAECAwQFBgcICQoLDA0ODxAREhMUFRYXGBkaGxwdHh8=" (24 * time.Hour + 1)
    = None.
Proof.
  split.
  - destruct (Get_created ∅ sample.src 0 2 "user1" [2] _ _
                (auth.Create ∅ sample.src 0 2 "user1" [2]).2 5 eq_refl)
      as (Hbefore & _ & _).
    apply Hbefore. vm_compute. discriminate.
  - destruct (Get_created ∅ sample.src 0 2 "user1" [2] _ _
                (auth.Create ∅ sample.src 0 2 "user1" [2]).2
                (24 * time.Hour + 1) eq_refl)
      as (_ & Hafter & _).
    apply Hafter. reflexivity.
Defined.

(** C5: [Delete] returns a store for every token, whether the token is
    present, absent or expired, and has no error result; [Get] on the
    token just deleted is absent at every instant; and deleting a token
    twice leaves the very store that deleting it once leaves, so every
    later [Get] answers the same. *)
Theorem Delete_idempotent s tok now :
  auth.Get (auth.Delete s tok) tok now = None ∧
  auth.Delete (auth.Delete s tok) tok = auth.Delete s tok ∧
  (∀ id t, auth.Get (auth.Delete (auth.Delete s tok) tok) id t
           = auth.Get (auth.Delete s tok) id t).
Proof.
  unfold auth.Delete.
  assert (delete tok (delete tok s) = delete tok s) as Hidem.
  { apply map_eq. intros id. destruct (decide (tok = id)) as [->|Hne].
    - by rewrite !lookup_delete_eq.
    - by rewrite !lookup_delete_ne. }
  split; [|split].
  - apply Get_None. left. apply lookup_delete_eq.
  - exact Hidem.
  - intros id t. by rewrite Hidem.
Qed.

(** C9: one pass of [cleanupExpired] at instant [now], in whatever order
    the range visits the entries of the store, removes exactly the
    entries whose [Expires] is before [now]; every other token keeps the
    session it had, with its identity, groups and expiry, and no entry is
    added. *)
Theorem cleanupExpired_lookup order s now id :
  order ≡ₚ map_to_list s →
  auth.cleanupExpired order s now !! id
  = match s !! id with
    | Some session =>
        if auth.Expires session <? now then None else Some session
    | None => None
    end.
Proof.
  intros Horder.
  assert (∀ session, (id, session) ∈ order ↔ s !! id = Some session) as Hin.
  { intros session. rewrite Horder. apply elem_of_map_to_list. }
  destruct (s !! id) as [session|] eqn:Hs.
  - destruct (auth.Expires session <? now) eqn:Hexp.
    + apply (cleanup_range_expired order s now id session); [by apply Hin | done].
    + rewrite cleanup_range_kept; [done|].
      intros session' [= ->]%Hin. done.
  - rewrite cleanup_range_kept; [done|]. by intros session' ?%Hin.
Qed.

Lemma cleanupExpired_lookup_witness :
  let s : gmap string auth.Session :=
    {[ "old" := {| auth.UserID := 1; auth.Username := "admin";
                   auth.GroupIDs := [1]; auth.Expires := 5 |};
       "new" := {| auth.UserID := 2; auth.Username := "user1";
                   auth.GroupIDs := [2]; auth.Expires := 9 |} ]} in
  auth.cleanupExpired (map_to_list s) s 7 !! "old" = None ∧
  auth.cleanupExpired (map_to_list s) s 7 !! "new" = s !! "new".
Proof.
  cbn zeta. split.
  - rewrite cleanupExpired_lookup by reflexivity. reflexivity.
  - rewrite cleanupExpired_lookup by reflexivity. reflexivity.
Defined.

(** C6: [Create] reads 32 bytes, that is 256 bits, from the random source;
    the token it returns is the padded base64url encoding of those bytes
    (44 characters), and the store then holds under that token a session
    whose [Expires] is the creation instant plus 24 hours (86 400 s); it
    fails exactly when the random source is unavailable, and then leaves
    the store as it was. *)
Theorem Create_token_expiry s src now userID username groupIDs :
  match auth.Create s src now userID username groupIDs with
  | (Ok tok, s', src') =>
      rand.available src = true ∧
      ∃ token,
        rand.Read src 32 = (Ok token, src') ∧
        (8 * length token = 256)%nat ∧
        tok = base64.EncodeToString token ∧
        String.length tok = 44%nat ∧
        s' = <[tok := {| auth.UserID := userID; auth.Username := username;
                         auth.GroupIDs := groupIDs;
                         auth.Expires := now + 24 * 3600 * 1000000000 |}]> s
  | (Err _, s', src') =>
      rand.available src = false ∧ s' = s
  end.
Proof.
  destruct (auth.Create s src now userID username groupIDs) as [[r s'] src'] eqn:Hc.
  apply Create_inv in Hc
    as [(Hna & -> & -> & e & ->)|(Ha & token & Hread & Hlen & -> & ->)].
  - done.
  - split; [done|]. exists token. repeat split; try done.
    + by rewrite Hlen.
    + clear -Hlen. unfold base64.EncodeToString.
      do 32 (destruct token as [|? token]; [discriminate Hlen|]).
      destruct token; [reflexivity | discriminate Hlen].
Qed.

End SessionStore.


(** ** The database queries *)

Section Database.

Implicit Types (db : database.DB) (session : auth.Session).

Lemma COUNT_pos {A} (P : A → bool) (table : list A) :
  0 < database.COUNT P table ↔ ∃ row, row ∈ table ∧ P row = true.
Proof.
  unfold database.COUNT. split.
  - intros Hpos.
    destruct (filter (λ row, P row = true) table) as [|row rest] eqn:Hf.
    + simpl in Hpos. lia.
    + exists row.
      assert (row ∈ filter (λ row, P row = true) table) as [? ?]%list_elem_of_filter
        by (rewrite Hf; apply list_elem_of_here).
      done.
  - intros (row & Hin & HP).
    assert (row ∈ filter (λ row, P row = true) table) as Hrow
      by (by apply list_elem_of_filter).
    destruct (filter (λ row, P row = true) table); [inversion Hrow | simpl; lia].
Qed.

Lemma COUNT_zero {A} (P : A → bool) (table : list A) :
  database.COUNT P table = 0 ↔ ∀ row, row ∈ table → P row = false.
Proof.
  split.
  - intros H0 row Hin. destruct (P row) eqn:HP; [|done].
    assert (0 < database.COUNT P table) by (apply COUNT_pos; eauto). lia.
  - intros Hall. destruct (Z.eq_dec (database.COUNT P table) 0) as [|Hne]; [done|].
    assert (0 < database.COUNT P table) as [row [Hin HP]]%COUNT_pos.
    { unfold database.COUNT in *. lia. }
    rewrite Hall in HP by done. discriminate.
Qed.

Lemma UserHasAccessToGroup_true db userID groupID :
  (database.UserHasAccessToGroup db userID groupID).1 = true ↔
  database.faults db database.mUserHasAccessToGroup = None ∧
  (userID, groupID) ∈ database.user_groups db.
Proof.
  unfold database.UserHasAccessToGroup.
  destruct (database.faults db database.mUserHasAccessToGroup) as [e|]; simpl.
  - split; [discriminate | by intros [? _]].
  - rewrite Z.ltb_lt, COUNT_pos. split.
    + intros ([u g] & Hin & [Hu Hg]%andb_true_iff). simpl in Hu, Hg.
      apply Z.eqb_eq in Hu as ->. apply Z.eqb_eq in Hg as ->. done.
    + intros [_ Hin]. exists (userID, groupID). simpl.
      by rewrite !Z.eqb_refl.
Qed.

Lemma GetAllGroups_elem db g :
  g ∈ (database.GetAllGroups db).1 ↔
  database.faults db database.mGetAllGroups = None ∧ g ∈ database.groups db.
Proof.
  unfold database.GetAllGroups.
  destruct (database.faults db database.mGetAllGroups) as [e|]; simpl.
  - split; [by intros ?%elem_of_nil | by intros [? _]].
  - rewrite merge_sort_Permutation. split; [done | by intros [_ ?]].
Qed.

Lemma GetFileByID_Ok db fileID file :
  database.GetFileByID db fileID = Ok file →
  file ∈ database.files db ∧ database.File_ID file = fileID.
Proof.
  unfold database.GetFileByID.
  destruct (database.faults db database.mGetFileByID); [discriminate|].
  destruct (find _ _) as [f|] eqn:Hfind; [|discriminate].
  intros [= ->]. apply find_some in Hfind as [Hin ->%Z.eqb_eq].
  split; [by apply list_elem_of_In | done].
Qed.

Lemma GetFileByID_no_record db fileID :
  (∀ file, file ∈ database.files db → database.File_ID file ≠ fileID) →
  ∃ e, database.GetFileByID db fileID = Err e.
Proof.
  intros Hnone. unfold database.GetFileByID.
  destruct (database.faults db database.mGetFileByID); [by eexists|].
  destruct (find _ _) as [f|] eqn:Hfind; [|by eexists].
  apply find_some in Hfind as [Hin Heq%Z.eqb_eq].
  by apply list_elem_of_In, Hnone in Hin.
Qed.

End Database.


(** ** The authorization decisions *)

Section Authorization.

Implicit Types (db : database.DB) (session : auth.Session).

(** C1 as stated fails: [user1] logs in as a member of group 2, so the
    session's snapshot is [2]; after [user1] has been moved to group 1 in
    [user_groups], the decision that gates the download of a file of
    group 2 is false for that same session (the download answers 403,
    before the move it answered 200), and the decision for group 1, which
    is not in the snapshot, is true. *)
Lemma access_snapshot_counterexample :
  (handlers.Login sample.CompareHashAndPassword sample.db ∅ sample.src 0
     (sample.post [("username", "user1"); ("password", "password")])).1.2
    !! "AAECAwQFBgcICQoLDA0ODxAREhMUFRYXGBkaGxwdHh8="
    = Some sample.user1Session ∧
  auth.GroupIDs sample.user1Session = [2] ∧
  database.UserHasAccessToGroup sample.db
    (auth.UserID sample.user1Session) 2 = (true, nil) ∧
  database.UserHasAccessToGroup sample.db_user1_moved
    (auth.UserID sample.user1Session) 2 = (false, nil) ∧
  database.UserHasAccessToGroup sample.db_user1_moved
    (auth.UserID sample.user1Session) 1 = (true, nil) ∧
  http.StatusCode
    (handlers.DownloadFile (λ n, n) (λ n, n) sample.db sample.fs
       sample.user1Session (sample.get "2")).1 = 200 ∧
  http.StatusCode
    (handlers.DownloadFile (λ n, n) (λ n, n) sample.db_user1_moved sample.fs
       sample.user1Session (sample.get "2")).1 = 403.
Proof.
  split; [apply lookup_insert_eq|].
  repeat split; vm_compute; reflexivity.
Qed.

(** C1, amended: the decision that gates a resource fetch is the result
    of the live membership query for the session's user id.
    [DownloadFile], for a request that names a stored file, gets past its
    gate to open the file if and only if [UserHasAccessToGroup] succeeds
    and [user_groups] holds, at the time of the request, the row of the
    session's user and the file's group, and it answers 403 if and only
    if the query succeeds and that row is missing. The answer does not
    depend on the group ids snapshotted in the session: two sessions of
    one user get the same answer, whatever their snapshots, and a change
    of [user_groups] after the login changes it. *)
Theorem access_is_live_membership (PathEscape Base : string → string)
    db fs session r fileID file :
  strconv.Atoi (http.FormValue r "id") = (fileID, nil) →
  database.GetFileByID db fileID = Ok file →
  let groupID := database.File_GroupID file in
  let out := handlers.DownloadFile PathEscape Base db fs session r in
  let member := (auth.UserID session, groupID) ∈ database.user_groups db in
  let answered := database.faults db database.mUserHasAccessToGroup = None in
  ((database.UserHasAccessToGroup db (auth.UserID session) groupID).1 = true ↔
   answered ∧ member) ∧
  (handlers.OsOpen (database.File_FilePath file) ∈ out.2 ↔ answered ∧ member) ∧
  (http.StatusCode out.1 = 403 ↔ answered ∧ ¬ member) ∧
  (∀ session',
     auth.UserID session' = auth.UserID session →
     handlers.DownloadFile PathEscape Base db fs session' r = out).
Proof.
  intros Hid Hget groupID out member answered.
  pose proof (UserHasAccessToGroup_true db (auth.UserID session) groupID) as Hlive.
  fold member answered in Hlive.
  split; [exact Hlive|].
  assert (out = handlers.DownloadFile PathEscape Base db fs session r) as Hout
    by done.
  unfold handlers.DownloadFile in Hout. rewrite Hid, Hget in Hout.
  simpl in Hout. fold groupID in Hout.
  destruct (database.UserHasAccessToGroup db (auth.UserID session) groupID)
    as [hasAccess err] eqn:Hcheck.
  simpl in Hlive.
  assert ((err = None ↔ answered) ∧ (err ≠ None → hasAccess = false))
    as [Hanswered Hfailed].
  { revert Hcheck. unfold database.UserHasAccessToGroup, answered.
    destruct (database.faults db database.mUserHasAccessToGroup);
      intros [= <- <-]; split; try done; by intros ?. }
  split; [|split].
  - rewrite <- Hlive, Hout. destruct err as [e|]; simpl.
    { rewrite Hfailed by done.
      split; [intros H; not_in_trace H | discriminate]. }
    destruct hasAccess; simpl.
    2: { split; [intros H; not_in_trace H | discriminate]. }
    split; [done|]. intros _.
    destruct (os.Open fs (database.File_FilePath file)) as [f|e]; simpl.
    + destruct (os.Stat f); apply list_elem_of_further, list_elem_of_further,
        list_elem_of_here.
    + apply list_elem_of_further, list_elem_of_further, list_elem_of_here.
  - rewrite Hout. destruct err as [e|]; simpl.
    { split; [discriminate | intros [Ha _]; by apply Hanswered in Ha]. }
    destruct hasAccess; simpl.
    + split.
      * intros Hstatus. exfalso.
        destruct (os.Open fs (database.File_FilePath file)) as [f|e];
          [destruct (os.Stat f)|]; discriminate Hstatus.
      * intros [_ Hnot]. destruct Hnot. by apply Hlive.
    + split; [|done]. intros _. split; [by apply Hanswered|].
      intros Hmember.
      assert (false = true) by (apply Hlive; split; [by apply Hanswered | done]).
      done.
  - intros session' Hsame. subst out. unfold handlers.DownloadFile.
    by rewrite Hsame.
Qed.

Lemma access_is_live_membership_witness :
  http.StatusCode
    (handlers.DownloadFile (λ n, n) (λ n, n) sample.db_user1_moved sample.fs
       sample.user1Session (sample.get "2")).1 = 403 ∧
  handlers.OsOpen "/home/user/.bashrc"
    ∈ (handlers.DownloadFile (λ n, n) (λ n, n) sample.db sample.fs
         sample.user1Session (sample.get "2")).2 ∧
  handlers.DownloadFile (λ n, n) (λ n, n) sample.db_user1_moved sample.fs
    {| auth.UserID := 2; auth.Username := "user1"; auth.GroupIDs := [1; 2];
       auth.Expires := 0 |} (sample.get "2")
  = handlers.DownloadFile (λ n, n) (λ n, n) sample.db_user1_moved sample.fs
      sample.user1Session (sample.get "2").
Proof.
  destruct (access_is_live_membership (λ n, n) (λ n, n) sample.db_user1_moved
              sample.fs sample.user1Session (sample.get "2") 2 sample.bashrc
              eq_refl eq_refl) as (_ & _ & Hdenied & Hsame).
  destruct (access_is_live_membership (λ n, n) (λ n, n) sample.db
              sample.fs sample.user1Session (sample.get "2") 2 sample.bashrc
              eq_refl eq_refl) as (_ & Hopened & _ & _).
  split; [|split].
  - apply Hdenied. split; [reflexivity|]. vm_compute. intros Hin.
    repeat (apply elem_of_cons in Hin as [[=]|Hin]). by apply elem_of_nil in Hin.
  - apply Hopened. split; [reflexivity|].
    apply list_elem_of_further, list_elem_of_here.
  - by apply Hsame.
Defined.

Lemma isAdmin_true db session :
  handlers.isAdmin db session = true ↔
  ∃ groupID g,
    groupID ∈ auth.GroupIDs session ∧ g ∈ (database.GetAllGroups db).1 ∧
    database.Group_ID g = groupID ∧ database.Group_Name g = "admins".
Proof.
  unfold handlers.isAdmin, database.GetAllGroups.
  destruct (database.faults db database.mGetAllGroups) as [e|]; simpl.
  - split; [discriminate | by intros (? & ? & _ & ?%elem_of_nil & _)].
  - rewrite existsb_exists. split.
    + intros (groupID & Hin & (g & Hg & [Hid Hname]%andb_true_iff)%existsb_exists).
      exists groupID, g. repeat split.
      * by apply list_elem_of_In.
      * by apply list_elem_of_In.
      * by apply Z.eqb_eq.
      * by apply String.eqb_eq.
    + intros (groupID & g & Hin & Hg & Hid & Hname). exists groupID.
      split; [by apply list_elem_of_In|]. apply existsb_exists. exists g.
      split; [by apply list_elem_of_In|].
      apply andb_true_iff. split; [by apply Z.eqb_eq | by apply String.eqb_eq].
Qed.

(** C4: [isAdmin] is true if and only if one of the session's group ids is
    the id of a row of the group table, as [GetAllGroups] reads it now,
    whose name is exactly "admins". It is a boolean and never an error:
    when the read of the group table fails it is false, and when none of
    the session's group ids is the id of a group in the table it is
    false. *)
Theorem isAdmin_iff_admins_group db session :
  (handlers.isAdmin db session = true ↔
   ∃ groupID g,
     groupID ∈ auth.GroupIDs session ∧ g ∈ (database.GetAllGroups db).1 ∧
     database.Group_ID g = groupID ∧ database.Group_Name g = "admins") ∧
  (∀ g, (database.GetAllGroups db).2 = nil →
        g ∈ (database.GetAllGroups db).1 ↔ g ∈ database.groups db) ∧
  ((database.GetAllGroups db).2 ≠ nil → handlers.isAdmin db session = false) ∧
  ((∀ groupID g, groupID ∈ auth.GroupIDs session → g ∈ database.groups db →
                 database.Group_ID g ≠ groupID) →
   handlers.isAdmin db session = false).
Proof.
  split; [apply isAdmin_true|]. split; [|split].
  - intros g Hok. rewrite GetAllGroups_elem. split; [by intros [_ ?]|].
    intros Hg. split; [|done]. revert Hok. unfold database.GetAllGroups.
    by destruct (database.faults db database.mGetAllGroups).
  - intros Herr. apply not_true_is_false.
    intros (groupID & g & _ & [Hok _]%GetAllGroups_elem & _)%isAdmin_true.
    apply Herr. unfold database.GetAllGroups. by rewrite Hok.
  - intros Habsent. apply not_true_is_false.
    intros (groupID & g & Hin & [_ Hg]%GetAllGroups_elem & Hid & _)%isAdmin_true.
    by apply (Habsent groupID g).
Qed.

Lemma isAdmin_iff_admins_group_witness :
  handlers.isAdmin sample.db sample.adminSession = true ∧
  handlers.isAdmin (sample.failing database.mGetAllGroups sample.db)
    sample.adminSession = false ∧
  handlers.isAdmin sample.db
    {| auth.UserID := 9; auth.Username := "ghost"; auth.GroupIDs := [7];
       auth.Expires := 0 |} = false.
Proof.
  split; [|split].
  - destruct (isAdmin_iff_admins_group sample.db sample.adminSession)
      as (Hiff & _ & _ & _).
    apply Hiff. exists 1, sample.admins. repeat split.
    + apply list_elem_of_here.
    + vm_compute. apply list_elem_of_here.
  - destruct (isAdmin_iff_admins_group
                (sample.failing database.mGetAllGroups sample.db)
                sample.adminSession) as (_ & _ & Hfailed & _).
    apply Hfailed. vm_compute. discriminate.
  - destruct (isAdmin_iff_admins_group sample.db
                {| auth.UserID := 9; auth.Username := "ghost";
                   auth.GroupIDs := [7]; auth.Expires := 0 |})
      as (_ & _ & _ & Habsent).
    apply Habsent. intros groupID g ->%list_elem_of_singleton Hg Hid.
    vm_compute in Hg.
    apply elem_of_cons in Hg as [->|Hg]; [discriminate Hid|].
    apply list_elem_of_singleton in Hg as ->. discriminate Hid.
Defined.

End Authorization.


(** ** The resource gateway *)

Section ResourceGateway.

Variables PathEscape Base : string → string.

Implicit Types (db : database.DB) (session : auth.Session).
Implicit Types (fs : gmap string os.File) (r : http.Request).

(** C3, amended: for every authenticated fetch request,
    - an identifier that [Atoi] rejects yields 400, with no call on the
      database or the file system;
    - an identifier whose record lookup fails, because no record is stored
      under it or because the query fails, yields 404 without any access
      check and without any file-system call;
    - a record found whose access-check query fails yields 500, and one
      whose access check is false yields 403, both before any file-system
      call;
    - after a positive access check, a failure to open the stored path or
      to stat the opened file yields 500;
    - otherwise the response is 200 with the bytes of the file. *)
Theorem DownloadFile_outcomes db fs session r :
  let out := handlers.DownloadFile PathEscape Base db fs session r in
  let no_fs := Forall (λ ev, handlers.is_fs ev = false) out.2 in
  let no_check := Forall (λ ev, handlers.is_access_check ev = false) out.2 in
  ((strconv.Atoi (http.FormValue r "id")).2 ≠ nil →
   out = (http.Error "Invalid file ID" 400, [])) ∧
  (∀ fileID, strconv.Atoi (http.FormValue r "id") = (fileID, nil) →
     ((∀ file, file ∈ database.files db → database.File_ID file ≠ fileID) →
      http.StatusCode out.1 = 404 ∧ no_check ∧ no_fs) ∧
     (∀ e, database.GetFileByID db fileID = Err e →
      http.StatusCode out.1 = 404 ∧ no_check ∧ no_fs) ∧
     (∀ file, database.GetFileByID db fileID = Ok file →
        let check := database.UserHasAccessToGroup db (auth.UserID session)
                       (database.File_GroupID file) in
        let path := database.File_FilePath file in
        (check.2 ≠ nil → http.StatusCode out.1 = 500 ∧ no_fs) ∧
        (check = (false, nil) → http.StatusCode out.1 = 403 ∧ no_fs) ∧
        (check = (true, nil) →
           (∀ e, os.Open fs path = Err e → http.StatusCode out.1 = 500) ∧
           (∀ f, os.Open fs path = Ok f →
              (∀ e, os.Stat f = Err e → http.StatusCode out.1 = 500) ∧
              (∀ size, os.Stat f = Ok size →
                 http.StatusCode out.1 = 200 ∧
                 ∃ header, out.1 = http.Copy header (os.Data f) ∧
                   http.assoc "Content-Length" header
                   = Some (strconv.FormatInt (Z.of_nat (length (os.Data f))))))))).
Proof.
  intros out no_fs no_check. subst out no_fs no_check.
  unfold handlers.DownloadFile.
  destruct (strconv.Atoi (http.FormValue r "id")) as [fileID [e|]]; simpl.
  { split; [done | intros ? [=]]. }
  split; [by intros [] | intros ? [= <-]].
  destruct (database.GetFileByID db fileID) as [file|e] eqn:Hget; simpl.
  - split; [|split].
    + intros Hnone. apply GetFileByID_Ok in Hget as [Hin Hid].
      by apply Hnone in Hin.
    + intros ? [=].
    + intros ? [= <-].
      destruct (database.UserHasAccessToGroup _ _ _) as [hasAccess [e|]]; simpl.
      { split; [|split]; [|intros [=]..].
        intros _. split; [done|]. repeat constructor. }
      split; [by intros []|]. split.
      * intros [= ->]. simpl. split; [done|]. repeat constructor.
      * intros [= ->]. simpl. split.
        -- by intros e ->.
        -- intros f ->. split.
           ++ by intros e ->.
           ++ intros size Hstat. rewrite Hstat. simpl. split; [done|].
              eexists. split; [reflexivity|]. unfold os.Stat in Hstat.
              destruct (os.StatErr f); [discriminate|]. by injection Hstat as <-.
  - split; [|split].
    + intros _. repeat split; repeat constructor.
    + intros _ _. repeat split; repeat constructor.
    + intros ? [=].
Qed.

End ResourceGateway.

(** C3 as stated fails: [user1] asks for file 2, which is stored, belongs
    to group 2 of which [user1] is a member, and can be opened and read;
    the identifier is well formed. None of the failures that C3 lists
    occurs, yet when the access-check query itself fails the response is
    500 "Failed to check access", not 200 with the bytes (and not 403). *)
Lemma DownloadFile_check_error_counterexample :
  let db := sample.failing database.mUserHasAccessToGroup sample.db in
  strconv.Atoi "2" = (2, nil) ∧
  database.GetFileByID db 2 = Ok sample.bashrc ∧
  (auth.UserID sample.user1Session, database.File_GroupID sample.bashrc)
    ∈ database.user_groups db ∧
  (∃ f, os.Open sample.fs (database.File_FilePath sample.bashrc) = Ok f ∧
        os.Stat f = Ok 3) ∧
  handlers.DownloadFile (λ n, n) (λ n, n) db sample.fs sample.user1Session
    (sample.get "2")
  = (http.Error "Failed to check access" 500,
     [handlers.Query database.mGetFileByID;
      handlers.Query database.mUserHasAccessToGroup]).
Proof.
  cbn zeta. split; [reflexivity|]. split; [reflexivity|]. split.
  { apply list_elem_of_further, list_elem_of_here. }
  split; [|reflexivity].
  eexists. split; [apply (f_equal Ok), eq_refl | reflexivity].
Qed.

Lemma DownloadFile_outcomes_witness :
  handlers.DownloadFile (λ n, n) (λ n, n) sample.db sample.fs
    sample.user1Session (sample.get "abc")
  = (http.Error "Invalid file ID" 400, []) ∧
  http.StatusCode
    (handlers.DownloadFile (λ n, n) (λ n, n) sample.db sample.fs
       sample.user1Session (sample.get "7")).1 = 404 ∧
  http.StatusCode
    (handlers.DownloadFile (λ n, n) (λ n, n) sample.db sample.fs
       sample.user1Session (sample.get "1")).1 = 403 ∧
  http.StatusCode
    (handlers.DownloadFile (λ n, n) (λ n, n) sample.db sample.fs
       sample.adminSession (sample.get "1")).1 = 500 ∧
  http.StatusCode
    (handlers.DownloadFile (λ n, n) (λ n, n) sample.db sample.fs
       sample.user1Session (sample.get "2")).1 = 200.
Proof.
  split; [|split; [|split; [|split]]].
  - destruct (DownloadFile_outcomes (λ n, n) (λ n, n) sample.db sample.fs
                sample.user1Session (sample.get "abc")) as [Hmalformed _].
    apply Hmalformed. vm_compute. discriminate.
  - destruct (DownloadFile_outcomes (λ n, n) (λ n, n) sample.db sample.fs
                sample.user1Session (sample.get "7")) as [_ Hwell].
    destruct (Hwell 7 eq_refl) as (_ & Hmiss & _).
    apply (Hmiss database.ErrNoRows). reflexivity.
  - destruct (DownloadFile_outcomes (λ n, n) (λ n, n) sample.db sample.fs
                sample.user1Session (sample.get "1")) as [_ Hwell].
    destruct (Hwell 1 eq_refl) as (_ & _ & Hfound).
    destruct (Hfound sample.hosts eq_refl) as (_ & Hdenied & _).
    apply Hdenied. reflexivity.
  - destruct (DownloadFile_outcomes (λ n, n) (λ n, n) sample.db sample.fs
                sample.adminSession (sample.get "1")) as [_ Hwell].
    destruct (Hwell 1 eq_refl) as (_ & _ & Hfound).
    destruct (Hfound sample.hosts eq_refl) as (_ & _ & Hallowed).
    destruct (Hallowed eq_refl) as [Hopen _].
    apply (Hopen "open /etc/hosts: no such file or directory"). reflexivity.
  - destruct (DownloadFile_outcomes (λ n, n) (λ n, n) sample.db sample.fs
                sample.user1Session (sample.get "2")) as [_ Hwell].
    destruct (Hwell 2 eq_refl) as (_ & _ & Hfound).
    destruct (Hfound sample.bashrc eq_refl) as (_ & _ & Hallowed).
    destruct (Hallowed eq_refl) as [_ Hopened].
    destruct (Hopened {| os.Data := [x6c; x73; x0a]%byte; os.StatErr := nil |}
                eq_refl) as [_ Hstat].
    apply (Hstat 3 eq_refl).
Defined.


(** ** Login *)

Section Login.

Variable CompareHashAndPassword : string → string → bool.

Implicit Types (db : database.DB) (sessions : gmap string auth.Session).
Implicit Types (r : http.Request).

Lemma GetUserByUsername_unknown db username :
  (∀ u, u ∈ database.users db → database.users_username u ≠ username) →
  ∃ e, database.GetUserByUsername db username = Err e.
Proof.
  intros Hunknown. unfold database.GetUserByUsername.
  destruct (database.faults db database.mGetUserByUsername); [by eexists|].
  destruct (find _ _) as [row|] eqn:Hfind; [|by eexists].
  apply find_some in Hfind as [Hin Heq%String.eqb_eq].
  by apply list_elem_of_In, Hunknown in Hin.
Qed.

Lemma ValidateUser_wrong_password db username password :
  (∀ u, u ∈ database.users db → database.users_username u = username →
        CompareHashAndPassword (database.users_password_hash u) password = false) →
  ∃ e, database.ValidateUser CompareHashAndPassword db username password = Err e.
Proof.
  intros Hwrong. unfold database.ValidateUser, database.GetUserByUsername.
  destruct (database.faults db database.mGetUserByUsername); [by eexists|].
  destruct (find _ _) as [row|] eqn:Hfind; [|by eexists].
  apply find_some in Hfind as [Hin Heq%String.eqb_eq]. simpl.
  rewrite Hwrong; [by eexists | by apply list_elem_of_In | done].
Qed.

(** C8: a login attempt with an identifier that no row of [users] bears
    and a login attempt with the identifier of a stored user and a secret
    that does not match its hash get the same response, the login page
    with the error "Invalid credentials"; neither sets a cookie nor
    changes the session store or the random source, so the two outcomes
    are equal in all that the caller sees. *)
Theorem Login_invalid_credentials db sessions src now r1 r2 :
  http.Method r1 = http.MethodPost →
  http.Method r2 = http.MethodPost →
  (∀ u, u ∈ database.users db →
        database.users_username u ≠ http.FormValue r1 "username") →
  (∃ u, u ∈ database.users db ∧
        database.users_username u = http.FormValue r2 "username") →
  (∀ u, u ∈ database.users db →
        database.users_username u = http.FormValue r2 "username" →
        CompareHashAndPassword (database.users_password_hash u)
          (http.FormValue r2 "password") = false) →
  handlers.Login CompareHashAndPassword db sessions src now r1
  = (http.ExecuteTemplate "login.html" [("Error", "Invalid credentials")],
     [], sessions, src) ∧
  handlers.Login CompareHashAndPassword db sessions src now r2
  = handlers.Login CompareHashAndPassword db sessions src now r1.
Proof.
  intros Hpost1 Hpost2 Hunknown _ Hwrong. unfold handlers.Login.
  rewrite Hpost1, Hpost2. simpl.
  destruct (GetUserByUsername_unknown db _ Hunknown) as [e1 He1].
  destruct (ValidateUser_wrong_password db _ _ Hwrong) as [e2 He2].
  unfold database.ValidateUser at 1 3. rewrite He1, He2. done.
Qed.

End Login.

Lemma Login_invalid_credentials_witness :
  handlers.Login sample.CompareHashAndPassword sample.db ∅ sample.src 0
    (sample.post [("username", "mallory"); ("password", "password")])
  = (http.ExecuteTemplate "login.html" [("Error", "Invalid credentials")],
     [], ∅, sample.src) ∧
  handlers.Login sample.CompareHashAndPassword sample.db ∅ sample.src 0
    (sample.post [("username", "user1"); ("password", "letmein")])
  = handlers.Login sample.CompareHashAndPassword sample.db ∅ sample.src 0
      (sample.post [("username", "mallory"); ("password", "password")]).
Proof.
  apply (Login_invalid_credentials sample.CompareHashAndPassword sample.db ∅
           sample.src 0
           (sample.post [("username", "mallory"); ("password", "password")])
           (sample.post [("username", "user1"); ("password", "letmein")])).
  - reflexivity.
  - reflexivity.
  - intros u Hu Hname. vm_compute in Hu, Hname.
    repeat (apply elem_of_cons in Hu as [->|Hu]; [discriminate Hname|]).
    by apply elem_of_nil in Hu.
  - eexists. split; [apply list_elem_of_further, list_elem_of_here | reflexivity].
  - intros u Hu Hname. vm_compute in Hu, Hname.
    apply elem_of_cons in Hu as [->|Hu]; [discriminate Hname|].
    apply elem_of_cons in Hu as [->|Hu]; [reflexivity|].
    apply elem_of_cons in Hu as [->|Hu]; [discriminate Hname|].
    by apply elem_of_nil in Hu.
Defined.


(** ** Group deletion *)

Section AdminDeleteGroup.

Implicit Types (db : database.DB) (session : auth.Session) (r : http.Request).

Lemma DeleteGroup_Ok db groupID :
  database.faults db database.mDeleteGroup = None →
  ∃ db', database.DeleteGroup db groupID = (nil, db') ∧
    database.files db' = database.files db ∧
    database.user_groups db' = database.user_groups db ∧
    ∀ g, g ∈ database.groups db' ↔
         g ∈ database.groups db ∧ database.Group_ID g ≠ groupID.
Proof.
  intros Hok. unfold database.DeleteGroup. rewrite Hok.
  eexists. split; [reflexivity|]. simpl.
  split; [done|]. split; [done|].
  intros g. rewrite list_elem_of_filter. tauto.
Qed.

(** What [AdminDeleteGroup] does for an administrator's POST when the
    file count it reads is not positive. *)
Lemma AdminDeleteGroup_proceeds db session r :
  http.Method r = http.MethodPost →
  handlers.isAdmin db session = true →
  let groupID := (strconv.Atoi (http.FormValue r "id")).1 in
  (database.GetGroupFileCount db groupID).1 <= 0 →
  handlers.AdminDeleteGroup db session r
  = match database.DeleteGroup db groupID with
    | (Some e, db') =>
        (http.Redirect "/admin/groups?error=Failed+to+delete+group" 303, db',
         [handlers.Query database.mGetAllGroups;
          handlers.Query database.mGetGroupFileCount;
          handlers.Query database.mDeleteGroup;
          handlers.LogPrintf ("Failed to delete group: " +:+ e)])
    | (None, db') =>
        (http.Redirect "/admin/groups?success=Group+deleted+successfully" 303, db',
         [handlers.Query database.mGetAllGroups;
          handlers.Query database.mGetGroupFileCount;
          handlers.Query database.mDeleteGroup])
    end.
Proof.
  intros Hpost Hadmin groupID Hcount. subst groupID.
  unfold handlers.AdminDeleteGroup. rewrite Hpost, Hadmin. simpl.
  destruct (strconv.Atoi (http.FormValue r "id")) as [groupID err].
  simpl in Hcount.
  destruct (database.GetGroupFileCount db groupID) as [fileCount err'].
  simpl in Hcount. destruct (Z.ltb_spec 0 fileCount); [lia|]. done.
Qed.

(** What it does when the count it reads is positive: it refuses, and
    leaves the database as it was. *)
Lemma AdminDeleteGroup_refuses db session r :
  http.Method r = http.MethodPost →
  handlers.isAdmin db session = true →
  let groupID := (strconv.Atoi (http.FormValue r "id")).1 in
  0 < (database.GetGroupFileCount db groupID).1 →
  handlers.AdminDeleteGroup db session r
  = (http.Redirect "/admin/groups?error=Cannot+delete+group+with+files+assigned"
       303,
     db,
     [handlers.Query database.mGetAllGroups;
      handlers.Query database.mGetGroupFileCount]).
Proof.
  intros Hpost Hadmin groupID Hcount. subst groupID.
  unfold handlers.AdminDeleteGroup. rewrite Hpost, Hadmin. simpl.
  destruct (strconv.Atoi (http.FormValue r "id")) as [groupID err].
  simpl in Hcount.
  destruct (database.GetGroupFileCount db groupID) as [fileCount err'].
  simpl in Hcount. destruct (Z.ltb_spec 0 fileCount); [done | lia].
Qed.

(** C10: when the file-count query of an administrator's deletion request
    fails, the error is dropped and the count is read as zero: the handler
    does not refuse, it goes on to [DeleteGroup], whatever files reference
    the group, and answers with the outcome of that statement; when the
    statement succeeds the answer is the success redirect, the group's row
    is gone and the files are as they were. *)
Theorem AdminDeleteGroup_count_error_ignored db session r e :
  http.Method r = http.MethodPost →
  handlers.isAdmin db session = true →
  let groupID := (strconv.Atoi (http.FormValue r "id")).1 in
  (database.GetGroupFileCount db groupID).2 = Some e →
  let out := handlers.AdminDeleteGroup db session r in
  (database.GetGroupFileCount db groupID).1 = 0 ∧
  handlers.Query database.mDeleteGroup ∈ out.2 ∧
  out.1.2 = (database.DeleteGroup db groupID).2 ∧
  out.1.1 ≠ http.Redirect
              "/admin/groups?error=Cannot+delete+group+with+files+assigned" 303 ∧
  (database.faults db database.mDeleteGroup = None →
   out.1.1 = http.Redirect "/admin/groups?success=Group+deleted+successfully" 303 ∧
   database.files out.1.2 = database.files db ∧
   ∀ g, g ∈ database.groups out.1.2 → database.Group_ID g ≠ groupID).
Proof.
  intros Hpost Hadmin groupID Herr out.
  assert ((database.GetGroupFileCount db groupID).1 = 0) as Hzero.
  { revert Herr. unfold database.GetGroupFileCount.
    by destruct (database.faults db database.mGetGroupFileCount). }
  split; [done|]. subst out.
  rewrite (AdminDeleteGroup_proceeds db session r Hpost Hadmin)
    by (fold groupID; lia).
  fold groupID.
  destruct (database.DeleteGroup db groupID) as [[e'|] db'] eqn:Hdel; simpl.
  - split; [apply list_elem_of_further, list_elem_of_further, list_elem_of_here|].
    split; [done|]. split; [discriminate|].
    intros Hok. apply (DeleteGroup_Ok db groupID) in Hok as (? & Hdel' & _).
    rewrite Hdel in Hdel'. unfold nil in Hdel'. discriminate Hdel'.
  - split; [apply list_elem_of_further, list_elem_of_further, list_elem_of_here|].
    split; [done|]. split; [discriminate|].
    intros Hok. apply (DeleteGroup_Ok db groupID) in Hok as (db'' & Hdel' & Hfiles & _ & Hgroups).
    assert (db'' = db') as -> by (rewrite Hdel in Hdel'; by injection Hdel').
    split; [done|]. split; [done|]. intros g Hg. by apply Hgroups in Hg as [_ ?].
Qed.

End AdminDeleteGroup.

Lemma AdminDeleteGroup_count_error_ignored_witness :
  let db := sample.failing database.mGetGroupFileCount sample.db in
  let out := handlers.AdminDeleteGroup db sample.adminSession
               (sample.post [("id", "2")]) in
  (database.GetGroupFileCount db 2).1 = 0 ∧
  handlers.Query database.mDeleteGroup ∈ out.2 ∧
  out.1.1 = http.Redirect "/admin/groups?success=Group+deleted+successfully" 303.
Proof.
  cbn zeta.
  destruct (AdminDeleteGroup_count_error_ignored
              (sample.failing database.mGetGroupFileCount sample.db)
              sample.adminSession (sample.post [("id", "2")])
              "database is locked" eq_refl eq_refl eq_refl)
    as (Hzero & Hcall & _ & _ & Hdeleted).
  split; [exact Hzero|]. split; [exact Hcall|].
  destruct (Hdeleted eq_refl) as [Hsuccess _]. exact Hsuccess.
Defined.

(** C7, at the input where the handler departs from it: file [bashrc]
    references group 2 and the file-count query fails; the administrator's
    request to delete group 2 is answered with the success redirect, the
    row of group 2 is gone, and [bashrc] still references it. *)
Theorem AdminDeleteGroup_deletes_referenced_group :
  let db := sample.failing database.mGetGroupFileCount sample.db in
  let out := handlers.AdminDeleteGroup db sample.adminSession
               (sample.post [("id", "2")]) in
  sample.bashrc ∈ database.files db ∧
  database.File_GroupID sample.bashrc = 2 ∧
  database.groups db = [sample.admins; sample.usersGroup] ∧
  out.1.1 = http.Redirect "/admin/groups?success=Group+deleted+successfully" 303 ∧
  database.groups out.1.2 = [sample.admins] ∧
  sample.bashrc ∈ database.files out.1.2.
Proof.
  cbn zeta. split; [apply list_elem_of_further, list_elem_of_here|].
  split; [reflexivity|]. split; [reflexivity|]. split; [reflexivity|].
  split; [reflexivity|]. apply list_elem_of_further, list_elem_of_here.
Qed.

(** The guard of [AdminDeleteGroup] when the file-count query succeeds:
    while a file references the group the deletion is refused with the
    redirect that says so and the database is unchanged; once no file
    references it, and the [DELETE] statement succeeds, the answer is the
    success redirect, the rows of [groups] with the target id are gone and
    every other row of [groups] is kept, in its place, and [users],
    [user_groups] (the connection does not enable foreign keys, so
    nothing cascades) and [files] are as they were. *)
Theorem AdminDeleteGroup_guard db session r :
  http.Method r = http.MethodPost →
  handlers.isAdmin db session = true →
  database.faults db database.mGetGroupFileCount = None →
  let groupID := (strconv.Atoi (http.FormValue r "id")).1 in
  let out := handlers.AdminDeleteGroup db session r in
  ((∃ file, file ∈ database.files db ∧ database.File_GroupID file = groupID) →
   out.1.1 = http.Redirect
               "/admin/groups?error=Cannot+delete+group+with+files+assigned" 303 ∧
   out.1.2 = db ∧
   handlers.Query database.mDeleteGroup ∉ out.2) ∧
  ((∀ file, file ∈ database.files db → database.File_GroupID file ≠ groupID) →
   database.faults db database.mDeleteGroup = None →
   out.1.1 = http.Redirect "/admin/groups?success=Group+deleted+successfully" 303 ∧
   (∀ g, g ∈ database.groups out.1.2 ↔
         g ∈ database.groups db ∧ database.Group_ID g ≠ groupID) ∧
   database.groups out.1.2
     = filter (λ g, database.Group_ID g ≠ groupID) (database.groups db) ∧
   database.users out.1.2 = database.users db ∧
   database.user_groups out.1.2 = database.user_groups db ∧
   database.files out.1.2 = database.files db ∧
   database.faults out.1.2 = database.faults db).
Proof.
  intros Hpost Hadmin Hcount groupID out.
  assert ((database.GetGroupFileCount db groupID).1
          = database.COUNT (λ f, database.File_GroupID f =? groupID)
              (database.files db)) as Heq.
  { unfold database.GetGroupFileCount. by rewrite Hcount. }
  split.
  - intros (file & Hin & Hgroup). subst out.
    rewrite (AdminDeleteGroup_refuses db session r Hpost Hadmin).
    + simpl. split; [done|]. split; [done|].
      intros Hq. apply elem_of_cons in Hq as [[=]|Hq].
      apply elem_of_cons in Hq as [[=]|Hq]. by apply elem_of_nil in Hq.
    + fold groupID. rewrite Heq. apply COUNT_pos. exists file.
      split; [done | by apply Z.eqb_eq].
  - intros Hnone Hok. subst out.
    rewrite (AdminDeleteGroup_proceeds db session r Hpost Hadmin).
    + fold groupID. unfold database.DeleteGroup. rewrite Hok. simpl.
      split; [done|]. split; [|done].
      intros g. rewrite list_elem_of_filter. tauto.
    + fold groupID. rewrite Heq.
      assert (database.COUNT (λ f, database.File_GroupID f =? groupID)
                (database.files db) = 0) as ->; [|done].
      apply COUNT_zero. intros file Hin. apply Z.eqb_neq. by apply Hnone.
Qed.

Lemma AdminDeleteGroup_guard_witness :
  let reassigned := database.with_files sample.db [sample.hosts] in
  ((handlers.AdminDeleteGroup sample.db sample.adminSession
      (sample.post [("id", "2")])).1.1
   = http.Redirect
       "/admin/groups?error=Cannot+delete+group+with+files+assigned" 303 ∧
   (handlers.AdminDeleteGroup sample.db sample.adminSession
      (sample.post [("id", "2")])).1.2 = sample.db) ∧
  ((handlers.AdminDeleteGroup reassigned sample.adminSession
      (sample.post [("id", "2")])).1.1
   = http.Redirect "/admin/groups?success=Group+deleted+successfully" 303 ∧
   database.groups
     (handlers.AdminDeleteGroup reassigned sample.adminSession
        (sample.post [("id", "2")])).1.2 = [sample.admins] ∧
   database.user_groups
     (handlers.AdminDeleteGroup reassigned sample.adminSession
        (sample.post [("id", "2")])).1.2 = database.user_groups sample.db).
Proof.
  cbn zeta. split.
  - destruct (AdminDeleteGroup_guard sample.db sample.adminSession
                (sample.post [("id", "2")]) eq_refl eq_refl eq_refl)
      as [Hrefused _].
    destruct Hrefused as (Hresponse & Hdb & _).
    + exists sample.bashrc.
      split; [apply list_elem_of_further, list_elem_of_here | reflexivity].
    + split; [exact Hresponse | exact Hdb].
  - destruct (AdminDeleteGroup_guard
                (database.with_files sample.db [sample.hosts]) sample.adminSession
                (sample.post [("id", "2")]) eq_refl eq_refl eq_refl)
      as [_ Hdeleted].
    destruct Hdeleted as (Hresponse & _ & Hgroups & _ & Hrows & _).
    + intros file ->%list_elem_of_singleton. discriminate.
    + reflexivity.
    + split; [exact Hresponse|]. split; [by rewrite Hgroups | by rewrite Hrows].
Defined.


(** * Further properties of the code *)

(** ** Sessions behind the middleware *)

Section Middleware.

Implicit Types (sessions : gmap string auth.Session) (now t : time.Time).
Implicit Types (r : http.Request) (session : auth.Session).

(** [AuthMiddleware] hands a session to the next handler only when the
    request carries a [session_id] cookie whose value is a token of the
    store and the session under it has not expired; in every other case
    it answers with the redirect 303 to the login page, and then the
    cookie, if there is one, does not resolve. *)
Theorem AuthMiddleware_sound sessions now r :
  match handlers.AuthMiddleware sessions now r with
  | inr session =>
      ∃ tok, http.assoc "session_id" (http.Cookies r) = Some tok ∧
             sessions !! tok = Some session ∧ now <= auth.Expires session
  | inl w =>
      w = http.Redirect "/" 303 ∧
      (http.assoc "session_id" (http.Cookies r) = None ∨
       ∃ tok, http.assoc "session_id" (http.Cookies r) = Some tok ∧
              auth.Get sessions tok now = None)
  end.
Proof.
  unfold handlers.AuthMiddleware, auth.GetSessionFromRequest, http.CookieOf.
  destruct (http.assoc "session_id" (http.Cookies r)) as [tok|]; [|by split; [|left]].
  destruct (auth.Get sessions tok now) as [session|] eqn:Hget.
  - exists tok. split; [done|]. by apply Get_Some.
  - split; [done|]. right. by exists tok.
Qed.

(** The sweep is invisible to [Get]: after a pass of [cleanupExpired] at
    instant [now], every token resolves at [now] and at every later
    instant exactly as it would have without the pass. *)
Theorem cleanupExpired_Get order (s : gmap string auth.Session) now t id :
  order ≡ₚ map_to_list s →
  now <= t →
  auth.Get (auth.cleanupExpired order s now) id t = auth.Get s id t.
Proof.
  intros Horder Ht.
  assert (∀ session, (id, session) ∈ order ↔ s !! id = Some session) as Hin.
  { intros session. rewrite Horder. apply elem_of_map_to_list. }
  unfold auth.Get at 1 2.
  destruct (s !! id) as [session|] eqn:Hs.
  - destruct (time.Before (auth.Expires session) now) eqn:Hexp.
    + rewrite (cleanup_range_expired order s now id session) by (by apply Hin || done).
      unfold time.Before in *. apply Z.ltb_lt in Hexp.
      by destruct (Z.ltb_spec (auth.Expires session) t); [|lia].
    + rewrite cleanup_range_kept, Hs; [done|].
      by intros session' [= ->]%Hin.
  - rewrite cleanup_range_kept, Hs; [done|]. by intros session' ?%Hin.
Qed.

Lemma cleanupExpired_Get_witness :
  let s : gmap string auth.Session :=
    {[ "old" := {| auth.UserID := 1; auth.Username := "admin";
                   auth.GroupIDs := [1]; auth.Expires := 5 |};
       "new" := {| auth.UserID := 2; auth.Username := "user1";
                   auth.GroupIDs := [2]; auth.Expires := 9 |} ]} in
  auth.Get (auth.cleanupExpired (map_to_list s) s 7) "new" 8 = auth.Get s "new" 8 ∧
  auth.Get (auth.cleanupExpired (map_to_list s) s 7) "old" 8 = auth.Get s "old" 8.
Proof.
  cbn zeta. split.
  - apply cleanupExpired_Get; [reflexivity | lia].
  - apply cleanupExpired_Get; [reflexivity | lia].
Defined.

(** [Logout] always answers with the redirect 303 to the login page and
    the cookie that clears [session_id] (empty value, negative max-age);
    afterwards the same request is not authenticated at any instant, and
    the session of every token other than the request's is untouched. *)
Theorem Logout_ends_session sessions r now :
  let out := handlers.Logout sessions r in
  out.1.1 = http.Redirect "/" 303 ∧
  out.1.2 = [auth.ClearSessionCookie] ∧
  http.Value auth.ClearSessionCookie = "" ∧
  http.MaxAge auth.ClearSessionCookie < 0 ∧
  handlers.AuthMiddleware out.2 now r = inl (http.Redirect "/" 303) ∧
  (∀ tok, http.assoc "session_id" (http.Cookies r) ≠ Some tok →
          out.2 !! tok = sessions !! tok).
Proof.
  cbn zeta. unfold handlers.Logout, handlers.AuthMiddleware,
    auth.GetSessionFromRequest, http.CookieOf. simpl.
  repeat (split; [done|]).
  destruct (http.assoc "session_id" (http.Cookies r)) as [tok|]; split; try done.
  - assert (auth.Get (auth.Delete sessions tok) tok now = None) as ->; [|done].
    apply Get_None. left. apply lookup_delete_eq.
  - intros tok' Hne. apply lookup_delete_ne. congruence.
Qed.

Lemma Logout_ends_session_witness :
  let sessions : gmap string auth.Session :=
    {[ "a" := sample.adminSession; "b" := sample.user1Session ]} in
  let r := {| http.Method := "GET"; http.Cookies := [("session_id", "a")];
              http.Form := [] |} in
  handlers.AuthMiddleware sessions 0 r = inr sample.adminSession ∧
  handlers.AuthMiddleware (handlers.Logout sessions r).2 0 r
    = inl (http.Redirect "/" 303) ∧
  (handlers.Logout sessions r).2 !! "b" = Some sample.user1Session.
Proof.
  cbn zeta. split; [reflexivity|].
  destruct (Logout_ends_session
              {[ "a" := sample.adminSession; "b" := sample.user1Session ]}
              {| http.Method := "GET"; http.Cookies := [("session_id", "a")];
                 http.Form := [] |} 0) as (_ & _ & _ & _ & Hout & Hother).
  split; [exact Hout|]. rewrite Hother; [reflexivity | discriminate].
Defined.

End Middleware.


(** ** Logging in *)

Section LoginSession.

Variable CompareHashAndPassword : string → string → bool.

Implicit Types (db : database.DB) (sessions : gmap string auth.Session).
Implicit Types (r : http.Request) (row : database.users_row).

Lemma find_unique_username (rows : list database.users_row) row username :
  NoDup (map database.users_username rows) →
  row ∈ rows → database.users_username row = username →
  find (λ u, String.eqb (database.users_username u) username) rows = Some row.
Proof.
  intros Hnodup Hin Hname. induction rows as [|u rows IH]; [by apply elem_of_nil in Hin|].
  simpl in *. apply NoDup_cons in Hnodup as [Hu Hnodup].
  apply elem_of_cons in Hin as [->|Hin].
  - by rewrite (proj2 (String.eqb_eq _ _) Hname).
  - destruct (String.eqb_spec (database.users_username u) username) as [Heq|_].
    + exfalso. apply Hu. rewrite Heq, <- Hname.
      apply list_elem_of_fmap. by exists row.
    + by apply IH.
Qed.

Lemma ValidateUser_Ok db username password user :
  database.ValidateUser CompareHashAndPassword db username password = Ok user →
  ∃ row, row ∈ database.users db ∧ database.users_username row = username ∧
         CompareHashAndPassword (database.users_password_hash row) password = true ∧
         database.User_ID user = database.users_id row.
Proof.
  unfold database.ValidateUser, database.GetUserByUsername.
  destruct (database.faults db database.mGetUserByUsername); [discriminate|].
  destruct (find _ _) as [row|] eqn:Hfind; [|discriminate]. simpl.
  destruct (CompareHashAndPassword _ _) eqn:Hcmp; [|discriminate].
  intros [= <-]. apply find_some in Hfind as [Hin Heq%String.eqb_eq].
  exists row. repeat split; try done. by apply list_elem_of_In.
Qed.

(** A login with the name of a stored user and a password that matches
    its hash, while the random source is available, answers with the
    redirect 303 to [/files] and one cookie, [session_id], whose value is
    the new token; the store then holds under that token a session with
    the user's id and name and with exactly the groups that
    [user_groups] gives the user at that moment, and until 24 hours later
    [AuthMiddleware] passes that session for any request that carries the
    cookie. *)
Theorem Login_creates_session db sessions src now r row :
  http.Method r = http.MethodPost →
  database.faults db database.mGetUserByUsername = None →
  NoDup (map database.users_username (database.users db)) →
  row ∈ database.users db →
  database.users_username row = http.FormValue r "username" →
  CompareHashAndPassword (database.users_password_hash row)
    (http.FormValue r "password") = true →
  rand.available src = true →
  let out := handlers.Login CompareHashAndPassword db sessions src now r in
  ∃ tok session,
    out.1.1.1 = http.Redirect "/files" 303 ∧
    out.1.1.2 = [auth.SetSessionCookie tok] ∧
    out.1.2 = <[tok := session]> sessions ∧
    auth.UserID session = database.users_id row ∧
    auth.Username session = database.users_username row ∧
    auth.Expires session = now + 24 * time.Hour ∧
    (∀ g, g ∈ auth.GroupIDs session ↔
          (database.users_id row, g) ∈ database.user_groups db) ∧
    (∀ t r', t <= now + 24 * time.Hour →
             http.assoc "session_id" (http.Cookies r') = Some tok →
             handlers.AuthMiddleware out.1.2 t r' = inr session).
Proof.
  intros Hpost Hok Hnodup Hin Hname Hcmp Havail out. subst out.
  unfold handlers.Login. rewrite Hpost. simpl.
  unfold database.ValidateUser, database.GetUserByUsername. rewrite Hok.
  rewrite (find_unique_username _ row _ Hnodup Hin Hname). simpl. rewrite Hcmp.
  unfold auth.Create, rand.Read. rewrite Havail. simpl.
  eexists _, _. repeat (split; [reflexivity|]). split.
  - intros g. simpl. rewrite list_elem_of_fmap. split.
    + intros ([u g'] & -> & [Hu Hg]%list_elem_of_filter). simpl in *. by subst u.
    + intros Hg. exists (database.users_id row, g). split; [done|].
      by apply list_elem_of_filter.
  - intros t r' Ht Hcookie.
    unfold handlers.AuthMiddleware, auth.GetSessionFromRequest, http.CookieOf.
    rewrite Hcookie.
    match goal with |- context [auth.Get ?s ?k t] =>
      assert (auth.Get s k t = s !! k) as ->
    end.
    { unfold auth.Get. rewrite lookup_insert_eq. simpl. unfold time.Before, time.Add.
      by destruct (Z.ltb_spec (now + 24 * time.Hour) t); [lia|]. }
    by rewrite lookup_insert_eq.
Qed.

(** [Login] sets a cookie or touches the session store only for a POST
    whose user name is that of a stored user and whose password matches
    that user's hash. *)
Theorem Login_only_with_credentials db sessions src now r :
  let out := handlers.Login CompareHashAndPassword db sessions src now r in
  (out.1.1.2 = [] ∧ out.1.2 = sessions) ∨
  (http.Method r = http.MethodPost ∧
   ∃ row, row ∈ database.users db ∧
          database.users_username row = http.FormValue r "username" ∧
          CompareHashAndPassword (database.users_password_hash row)
            (http.FormValue r "password") = true).
Proof.
  cbn zeta. unfold handlers.Login.
  destruct (String.eqb_spec (http.Method r) http.MethodPost) as [Hpost|_]; simpl;
    [|by left].
  destruct (database.ValidateUser _ _ _ _) as [user|e] eqn:Hv; [|by left].
  right. split; [done|].
  apply ValidateUser_Ok in Hv as (row & Hin & Hname & Hcmp & _). by exists row.
Qed.

End LoginSession.

Lemma Login_creates_session_witness :
  let out :=
    handlers.Login sample.CompareHashAndPassword sample.db ∅ sample.src 0
      (sample.post [("username", "user1"); ("password", "password")]) in
  ∃ tok session,
    out.1.1.2 = [auth.SetSessionCookie tok] ∧
    auth.UserID session = 2 ∧
    (∀ g, g ∈ auth.GroupIDs session ↔ (2, g) ∈ database.user_groups sample.db) ∧
    handlers.AuthMiddleware out.1.2 5
      {| http.Method := "GET"; http.Cookies := [("session_id", tok)];
         http.Form := [] |} = inr session.
Proof.
  cbn zeta.
  destruct (Login_creates_session sample.CompareHashAndPassword sample.db ∅
              sample.src 0
              (sample.post [("username", "user1"); ("password", "password")])
              {| database.users_id := 2; database.users_username := "user1";
                 database.users_password_hash := sample.hash "password" |})
    as (tok & session & _ & Hcookie & _ & Hid & _ & _ & Hgroups & Hpass).
  - reflexivity.
  - reflexivity.
  - apply (bool_decide_unpack _). vm_compute. exact I.
  - apply list_elem_of_further, list_elem_of_here.
  - reflexivity.
  - reflexivity.
  - reflexivity.
  - exists tok, session. split; [exact Hcookie|]. split; [exact Hid|].
    split; [exact Hgroups|]. apply Hpass.
    + vm_compute. discriminate.
    + reflexivity.
Defined.


(** ** The two file endpoints *)

Section FileEndpoints.

Variables PathEscape Base : string → string.

Implicit Types (db : database.DB) (session : auth.Session).
Implicit Types (fs : gmap string os.File) (r : http.Request).

(** Neither [DownloadFile] nor [ServeWorldFile] opens a path unless it is
    the stored path of the file whose id the request names and
    [user_groups] holds, at that moment, the row of the session's user and
    that file's group. *)
Theorem fetch_opens_only_for_members db fs session r path :
  handlers.OsOpen path ∈ (handlers.DownloadFile PathEscape Base db fs session r).2 ∨
  handlers.OsOpen path ∈ (handlers.ServeWorldFile db fs session r).2 →
  ∃ file,
    file ∈ database.files db ∧
    strconv.Atoi (http.FormValue r "id") = (database.File_ID file, nil) ∧
    database.File_FilePath file = path ∧
    (auth.UserID session, database.File_GroupID file) ∈ database.user_groups db.
Proof.
  unfold handlers.DownloadFile, handlers.ServeWorldFile.
  destruct (strconv.Atoi (http.FormValue r "id")) as [fileID [e|]]; simpl.
  { intros [H|H]; by apply elem_of_nil in H. }
  destruct (database.GetFileByID db fileID) as [file|e] eqn:Hget; simpl.
  2: { intros [H|H]; not_in_trace H. }
  apply GetFileByID_Ok in Hget as [Hin <-].
  destruct (database.UserHasAccessToGroup db (auth.UserID session)
              (database.File_GroupID file)) as [hasAccess [e|]] eqn:Hcheck; simpl.
  { intros [H|H]; not_in_trace H. }
  destruct hasAccess; simpl.
  2: { intros [H|H]; not_in_trace H. }
  assert ((auth.UserID session, database.File_GroupID file)
          ∈ database.user_groups db) as Hmember.
  { apply (UserHasAccessToGroup_true db). by rewrite Hcheck. }
  intros Hopen. exists file. split; [done|]. split; [done|]. split; [|done].
  destruct (os.Open fs (database.File_FilePath file)) as [f|e]; simpl in Hopen.
  - destruct (os.Stat f); simpl in Hopen; destruct Hopen as [H|H]; by opened_here H.
  - destruct Hopen as [H|H]; by opened_here H.
Qed.


End FileEndpoints.

Lemma fetch_opens_only_for_members_witness :
  ∃ file,
    file ∈ database.files sample.db ∧
    database.File_FilePath file = "/home/user/.bashrc" ∧
    (auth.UserID sample.user1Session, database.File_GroupID file)
      ∈ database.user_groups sample.db.
Proof.
  destruct (fetch_opens_only_for_members (λ n, n) (λ n, n) sample.db sample.fs
              sample.user1Session (sample.get "2") "/home/user/.bashrc")
    as (file & Hin & _ & Hpath & Hmember).
  - right. vm_compute.
    apply list_elem_of_further, list_elem_of_further, list_elem_of_here.
  - by exists file.
Defined.



(** ** The administrator's endpoints *)

Section AdminEndpoints.

Implicit Types (db : database.DB) (session : auth.Session) (r : http.Request).
Implicit Types (fail : error).

(** A request that is not a POST, or whose session is not an
    administrator's, changes nothing through the endpoints that edit or
    delete files, users and groups: each answers 405 or 403 and leaves
    the database as it was, and the group endpoint executes neither the
    count nor the [DELETE]. *)
Theorem admin_endpoints_require_admin fail db session r :
  http.Method r ≠ http.MethodPost ∨ handlers.isAdmin db session = false →
  let denied (w : http.Response) :=
    w = http.Error "Method not allowed" 405 ∨ w = http.Error "Access denied" 403 in
  (denied (handlers.AdminEditFile fail db session r).1 ∧
   (handlers.AdminEditFile fail db session r).2 = db) ∧
  (denied (handlers.AdminDeleteFile fail db session r).1 ∧
   (handlers.AdminDeleteFile fail db session r).2 = db) ∧
  (denied (handlers.AdminEditUser fail db session r).1 ∧
   (handlers.AdminEditUser fail db session r).2 = db) ∧
  (denied (handlers.AdminDeleteUser fail db session r).1 ∧
   (handlers.AdminDeleteUser fail db session r).2 = db) ∧
  (denied (handlers.AdminDeleteGroup db session r).1.1 ∧
   (handlers.AdminDeleteGroup db session r).1.2 = db ∧
   (handlers.Query database.mGetGroupFileCount
      ∉ (handlers.AdminDeleteGroup db session r).2) ∧
   (handlers.Query database.mDeleteGroup
      ∉ (handlers.AdminDeleteGroup db session r).2)).
Proof.
  intros Hdenied denied. subst denied.
  unfold handlers.AdminEditFile, handlers.AdminDeleteFile, handlers.AdminEditUser,
    handlers.AdminDeleteUser, handlers.AdminDeleteGroup.
  destruct (String.eqb_spec (http.Method r) http.MethodPost) as [Hpost|Hpost]; simpl.
  - destruct Hdenied as [?| ->]; [done|]. simpl.
    repeat split; try (by right); intros H; not_in_trace H.
  - repeat split; try (by left); intros H; by apply elem_of_nil in H.
Qed.

Lemma admin_endpoints_require_admin_witness :
  handlers.AdminDeleteFile None sample.db sample.user1Session
    (sample.post [("id", "1")])
  = (http.Error "Access denied" 403, sample.db) ∧
  handlers.AdminDeleteUser None sample.db sample.user1Session
    (sample.post [("id", "1")])
  = (http.Error "Access denied" 403, sample.db).
Proof.
  destruct (admin_endpoints_require_admin None sample.db sample.user1Session
              (sample.post [("id", "1")]))
    as (_ & [Hfile Hfile_db] & _ & [Huser Huser_db] & _).
  - right. reflexivity.
  - split.
    + destruct (handlers.AdminDeleteFile _ _ _ _) as [w db'] eqn:Hout.
      simpl in *. subst db'.
      destruct Hfile as [->| ->]; [discriminate Hout | reflexivity].
    + destruct (handlers.AdminDeleteUser _ _ _ _) as [w db'] eqn:Hout.
      simpl in *. subst db'.
      destruct Huser as [->| ->]; [discriminate Hout | reflexivity].
Defined.

(** No request makes [AdminDeleteUser] delete the account of the session
    that sends it: every row of [users] with the session's user id is
    still there afterwards. An administrator's POST that names the
    session's own id is refused with the redirect that says so; one that
    names another id, when the [DELETE] succeeds, removes the rows of
    [users] with that id and keeps every other row of [users], in its
    place. Whatever the request, [groups], [user_groups] (the connection
    does not enable foreign keys, so the user's memberships stay) and
    [files] are as they were. *)
Theorem AdminDeleteUser_keeps_own_account fail db session r :
  let out := handlers.AdminDeleteUser fail db session r in
  let userID := (strconv.Atoi (http.FormValue r "id")).1 in
  (∀ u, u ∈ database.users db → database.users_id u = auth.UserID session →
        u ∈ database.users out.2) ∧
  (http.Method r = http.MethodPost → handlers.isAdmin db session = true →
   (userID = auth.UserID session →
    out = (http.Redirect "/admin/users?error=Cannot+delete+your+own+account" 303,
           db)) ∧
   (userID ≠ auth.UserID session → fail = None →
    out.1 = http.Redirect "/admin/users?success=User+deleted+successfully" 303 ∧
    (∀ u, u ∈ database.users out.2 ↔
          u ∈ database.users db ∧ database.users_id u ≠ userID) ∧
    database.users out.2
      = filter (λ u, database.users_id u ≠ userID) (database.users db))) ∧
  (database.groups out.2 = database.groups db ∧
   database.user_groups out.2 = database.user_groups db ∧
   database.files out.2 = database.files db ∧
   database.faults out.2 = database.faults db).
Proof.
  cbn zeta. unfold handlers.AdminDeleteUser.
  destruct (negb (String.eqb (http.Method r) http.MethodPost)) eqn:Hpost; simpl.
  { split; [done|]. split; [|done].
    intros Heq. rewrite Heq in Hpost. discriminate Hpost. }
  destruct (handlers.isAdmin db session); simpl.
  2: { split; [done|]. split; [by intros _ [=] | done]. }
  destruct (strconv.Atoi (http.FormValue r "id")) as [userID err]. simpl.
  destruct (Z.eqb_spec userID (auth.UserID session)) as [Hown|Hother]; simpl.
  { split; [done|]. split; [|done]. intros _ _. split; [done|]. by intros []. }
  unfold database.DeleteUser. destruct fail as [e|]; simpl.
  { split; [done|]. split; [|done]. intros _ _. split; [done|]. by intros _ [=]. }
  split; [|split; [|done]].
  - intros u Hin Hid. apply list_elem_of_filter. split; [congruence | done].
  - intros _ _. split; [done|]. intros _ _. split; [done|]. split; [|done].
    intros u. rewrite list_elem_of_filter. tauto.
Qed.

Lemma AdminDeleteUser_keeps_own_account_witness :
  handlers.AdminDeleteUser None sample.db sample.adminSession
    (sample.post [("id", "1")])
  = (http.Redirect "/admin/users?error=Cannot+delete+your+own+account" 303,
     sample.db) ∧
  (handlers.AdminDeleteUser None sample.db sample.adminSession
     (sample.post [("id", "2")])).1
  = http.Redirect "/admin/users?success=User+deleted+successfully" 303 ∧
  map database.users_username
    (database.users
       (handlers.AdminDeleteUser None sample.db sample.adminSession
          (sample.post [("id", "2")])).2) = ["admin"; "user2"] ∧
  database.user_groups
    (handlers.AdminDeleteUser None sample.db sample.adminSession
       (sample.post [("id", "2")])).2 = database.user_groups sample.db.
Proof.
  split.
  - destruct (AdminDeleteUser_keeps_own_account None sample.db sample.adminSession
                (sample.post [("id", "1")])) as (_ & Hadmin & _).
    destruct (Hadmin eq_refl eq_refl) as [Hown _]. by apply Hown.
  - destruct (AdminDeleteUser_keeps_own_account None sample.db sample.adminSession
                (sample.post [("id", "2")])) as (_ & Hadmin & _ & Hmemberships & _).
    destruct (Hadmin eq_refl eq_refl) as [_ Hother].
    destruct Hother as (Hw & _ & Hrows); [discriminate | reflexivity |].
    split; [exact Hw|]. split; [by rewrite Hrows | exact Hmemberships].
Defined.

End AdminEndpoints.


(** ** Changes to memberships and files *)

Section Mutations.

Implicit Types (db : database.DB) (session : auth.Session) (r : http.Request).
Implicit Types (fail : error) (fs : gmap string os.File).

Lemma UpdateUser_rows fail db userID username groupIDs db' :
  database.UpdateUser fail db userID username groupIDs = (nil, db') →
  ∀ u g, (u, g) ∈ database.user_groups db' ↔
         (u = userID ∧ g ∈ groupIDs) ∨
         (u ≠ userID ∧ (u, g) ∈ database.user_groups db).
Proof.
  unfold database.UpdateUser. destruct fail as [e|]; [discriminate|].
  destruct (existsb _ _ && existsb _ _); [discriminate|].
  destruct (bool_decide (NoDup groupIDs)); [|discriminate].
  intros [= <-] u g. simpl.
  rewrite elem_of_app, list_elem_of_filter, list_elem_of_fmap. simpl. split.
  - intros [[? ?]|(g' & [= -> ->] & ?)]; [by right | by left].
  - intros [[-> ?]|[? ?]]; [right; by exists g | by left].
Qed.

(** [UpdateUser] is atomic: when it reports an error the database is the
    one it was given; when it succeeds, the user's memberships are exactly
    the given group ids, each once, the memberships of every other user
    are untouched, the access check for the user answers by the new
    groups, the user's rows bear the new name, and ids, password hashes,
    groups and files are as before. *)
Theorem UpdateUser_atomic fail db userID username groupIDs :
  let out := database.UpdateUser fail db userID username groupIDs in
  match out.1 with
  | Some _ => out.2 = db
  | None =>
      NoDup groupIDs ∧
      (∀ u g, (u, g) ∈ database.user_groups out.2 ↔
              (u = userID ∧ g ∈ groupIDs) ∨
              (u ≠ userID ∧ (u, g) ∈ database.user_groups db)) ∧
      (∀ g, (database.UserHasAccessToGroup out.2 userID g).1 = true ↔
            database.faults db database.mUserHasAccessToGroup = None ∧
            g ∈ groupIDs) ∧
      (∀ u, u ∈ database.users out.2 → database.users_id u = userID →
            database.users_username u = username) ∧
      map database.users_id (database.users out.2)
        = map database.users_id (database.users db) ∧
      map database.users_password_hash (database.users out.2)
        = map database.users_password_hash (database.users db) ∧
      database.groups out.2 = database.groups db ∧
      database.files out.2 = database.files db
  end.
Proof.
  cbn zeta.
  destruct (database.UpdateUser fail db userID username groupIDs)
    as [[e|] db'] eqn:Hupdate; simpl.
  { revert Hupdate. unfold database.UpdateUser. destruct fail; [by intros [= _ <-]|].
    destruct (existsb _ _ && existsb _ _); [by intros [= _ <-]|].
    destruct (bool_decide (NoDup groupIDs)); [discriminate | by intros [= _ <-]]. }
  pose proof (UpdateUser_rows _ _ _ _ _ _ Hupdate) as Hrows.
  revert Hupdate. unfold database.UpdateUser. destruct fail as [e|]; [discriminate|].
  destruct (existsb _ _ && existsb _ _); [discriminate|].
  destruct (bool_decide_reflect (NoDup groupIDs)) as [Hnodup|_]; [|discriminate].
  intros [= <-]. simpl.
  split; [done|]. split; [exact Hrows|]. split; [|split; [|split; [|split]]].
  - intros g. rewrite UserHasAccessToGroup_true. simpl. rewrite Hrows.
    split; [intros [? [[_ ?]|[? _]]]; done | intros [? ?]; split; [done | by left]].
  - intros u [u0 [-> Hu0]]%list_elem_of_fmap.
    destruct (Z.eqb_spec (database.users_id u0) userID); [done|]. by intros ?.
  - rewrite <- list_fmap_compose. apply list_fmap_ext. intros _ u _. simpl.
    by destruct (database.users_id u =? userID).
  - rewrite <- list_fmap_compose. apply list_fmap_ext. intros _ u _. simpl.
    by destruct (database.users_id u =? userID).
  - done.
Qed.

(** [AdminEditUser] never leaves the user it edits without a group: either
    the database is unchanged, or the edit is reported as a success and
    the user has at least one membership; an administrator's POST without
    any [group_ids] value is refused with the redirect that says so. *)
Theorem AdminEditUser_keeps_a_group fail db session r :
  let out := handlers.AdminEditUser fail db session r in
  let userID := (strconv.Atoi (http.FormValue r "id")).1 in
  (out.2 = db ∨
   (out.1 = http.Redirect "/admin/users?success=User+updated+successfully" 303 ∧
    ∃ g, (userID, g) ∈ database.user_groups out.2)) ∧
  (http.Method r = http.MethodPost → handlers.isAdmin db session = true →
   http.FormValues r "group_ids" = [] →
   out = (http.Redirect
            "/admin/users?error=User+must+belong+to+at+least+one+group" 303,
          db)).
Proof.
  cbn zeta. unfold handlers.AdminEditUser.
  destruct (negb (String.eqb (http.Method r) http.MethodPost)) eqn:Hpost; simpl.
  { split; [by left|]. intros Heq. rewrite Heq in Hpost. discriminate Hpost. }
  destruct (handlers.isAdmin db session); simpl.
  2: { split; [by left | by intros _ [=]]. }
  destruct (strconv.Atoi (http.FormValue r "id")) as [userID err]. simpl.
  destruct (http.FormValues r "group_ids") as [|gidStr rest]; simpl.
  { split; [by left | done]. }
  split; [|by intros _ _ [=]].
  destruct (database.UpdateUser _ _ _ _ _) as [[e|] db'] eqn:Hupdate; simpl.
  - left. revert Hupdate. unfold database.UpdateUser.
    destruct fail; [by intros [= _ <-]|].
    destruct (existsb _ _ && existsb _ _); [by intros [= _ <-]|].
    destruct (bool_decide _); [discriminate | by intros [= _ <-]].
  - right. split; [done|]. exists (strconv.Atoi gidStr).1.
    apply (UpdateUser_rows _ _ _ _ _ _ Hupdate). left.
    split; [done | apply list_elem_of_here].
Qed.

Lemma AdminEditUser_keeps_a_group_witness :
  handlers.AdminEditUser None sample.db sample.adminSession
    (sample.post [("id", "2"); ("username", "user1")])
  = (http.Redirect
       "/admin/users?error=User+must+belong+to+at+least+one+group" 303,
     sample.db).
Proof.
  destruct (AdminEditUser_keeps_a_group None sample.db sample.adminSession
              (sample.post [("id", "2"); ("username", "user1")]))
    as [_ Hrefused].
  by apply Hrefused.
Defined.

(** The listing query of the files page: for an empty list of group ids
    it returns no file and no error without executing a statement, so
    even when the driver would fail; otherwise, when the statement
    succeeds, it returns exactly the stored files whose group is among
    the given ids, each once. *)
Theorem GetFilesByGroupIDs_lists fail db groupIDs :
  database.GetFilesByGroupIDs fail db [] = ([], nil) ∧
  NoDup (database.GetFilesByGroupIDs fail db groupIDs).1 ∧
  (∀ f, f ∈ (database.GetFilesByGroupIDs fail db groupIDs).1 →
        f ∈ database.files db ∧ database.File_GroupID f ∈ groupIDs) ∧
  (∀ f, f ∈ database.files db → database.File_GroupID f ∈ groupIDs →
        f ∈ (database.GetFilesByGroupIDs None db groupIDs).1).
Proof.
  split; [done|]. unfold database.GetFilesByGroupIDs.
  destruct groupIDs as [|g gs]; simpl.
  { split; [constructor|]. split; [by intros f ?%elem_of_nil|].
    by intros f _ ?%elem_of_nil. }
  split; [|split].
  - destruct fail; simpl; [constructor | apply NoDup_remove_dups].
  - destruct fail; simpl; [by intros f ?%elem_of_nil|].
    intros f [? ?]%elem_of_remove_dups%list_elem_of_filter. done.
  - intros f Hin Hg. simpl. apply elem_of_remove_dups.
    by apply list_elem_of_filter.
Qed.

Lemma GetFilesByGroupIDs_lists_witness :
  sample.bashrc ∈ (database.GetFilesByGroupIDs None sample.db [2]).1 ∧
  (sample.hosts ∈ (database.GetFilesByGroupIDs None sample.db [2]).1 → False).
Proof.
  destruct (GetFilesByGroupIDs_lists None sample.db [2])
    as (_ & _ & Hsound & Hcomplete).
  split.
  - apply Hcomplete; [apply list_elem_of_further|]; apply list_elem_of_here.
  - intros [_ Hg]%Hsound. by apply list_elem_of_singleton in Hg.
Defined.

Lemma find_File_ID_filter (rows : list database.File) fileID id' :
  find (λ f, database.File_ID f =? id')
       (filter (λ f, database.File_ID f ≠ fileID) rows)
  = if id' =? fileID then None
    else find (λ f, database.File_ID f =? id') rows.
Proof.
  induction rows as [|f rows IH]; simpl.
  - by destruct (id' =? fileID).
  - rewrite filter_cons.
    destruct (decide (database.File_ID f ≠ fileID)) as [Hne|Heq%dec_stable]; simpl.
    + rewrite IH. destruct (Z.eqb_spec (database.File_ID f) id') as [<-|_]; [|done].
      by destruct (Z.eqb_spec (database.File_ID f) fileID).
    + rewrite IH. destruct (Z.eqb_spec id' fileID) as [Hsame|Hne]; [done|].
      destruct (Z.eqb_spec (database.File_ID f) id'); [congruence | done].
Qed.

(** Once an administrator has deleted a file, fetching it is answered 404
    by both file endpoints, for every session and whatever else holds,
    and the lookup of every other file id is as before. *)
Theorem AdminDeleteFile_then_not_found (PathEscape Base : string → string)
    db session r fileID :
  http.Method r = http.MethodPost →
  handlers.isAdmin db session = true →
  strconv.Atoi (http.FormValue r "id") = (fileID, nil) →
  let out := handlers.AdminDeleteFile None db session r in
  out.1 = http.Redirect "/admin/files?success=File+deleted+successfully" 303 ∧
  (∀ fs session' r',
     http.FormValue r' "id" = http.FormValue r "id" →
     http.StatusCode
       (handlers.DownloadFile PathEscape Base out.2 fs session' r').1 = 404 ∧
     http.StatusCode (handlers.ServeWorldFile out.2 fs session' r').1 = 404) ∧
  (∀ id', id' ≠ fileID →
          database.GetFileByID out.2 id' = database.GetFileByID db id').
Proof.
  intros Hpost Hadmin Hid out. subst out.
  unfold handlers.AdminDeleteFile. rewrite Hpost, Hadmin, Hid. simpl.
  split; [done|].
  assert (∀ id', database.GetFileByID
                   (database.with_files db
                      (filter (λ f, database.File_ID f ≠ fileID) (database.files db)))
                   id'
                 = if id' =? fileID
                   then match database.faults db database.mGetFileByID with
                        | Some e => Err e
                        | None => Err database.ErrNoRows
                        end
                   else database.GetFileByID db id') as Hlookup.
  { intros id'. unfold database.GetFileByID. simpl.
    destruct (database.faults db database.mGetFileByID); [by destruct (id' =? fileID)|].
    rewrite find_File_ID_filter. by destruct (id' =? fileID). }
  split.
  - intros fs session' r' Hsame.
    unfold handlers.DownloadFile, handlers.ServeWorldFile.
    rewrite Hsame, Hid, Hlookup, Z.eqb_refl.
    by destruct (database.faults db database.mGetFileByID).
  - intros id' Hne. rewrite Hlookup. by destruct (Z.eqb_spec id' fileID).
Qed.

Lemma AdminDeleteFile_then_not_found_witness :
  http.StatusCode
    (handlers.DownloadFile (λ n, n) (λ n, n) sample.db sample.fs
       sample.user1Session (sample.get "2")).1 = 200 ∧
  http.StatusCode
    (handlers.DownloadFile (λ n, n) (λ n, n)
       (handlers.AdminDeleteFile None sample.db sample.adminSession
          (sample.post [("id", "2")])).2
       sample.fs sample.user1Session (sample.get "2")).1 = 404.
Proof.
  split; [reflexivity|].
  destruct (AdminDeleteFile_then_not_found (λ n, n) (λ n, n) sample.db sample.adminSession
              (sample.post [("id", "2")]) 2 eq_refl eq_refl eq_refl)
    as (_ & Hgone & _).
  by apply Hgone.
Defined.

Lemma find_File_ID_map (rows : list database.File) fileID (upd : database.File → database.File) id' :
  (∀ f, database.File_ID (upd f) = database.File_ID f) →
  find (λ f, database.File_ID f =? id')
       (map (λ f, if database.File_ID f =? fileID then upd f else f) rows)
  = (λ f, if database.File_ID f =? fileID then upd f else f)
    <$> find (λ f, database.File_ID f =? id') rows.
Proof.
  intros Hupd. induction rows as [|f rows IH]; simpl; [done|].
  rewrite IH.
  destruct (database.File_ID f =? fileID) eqn:Hf; [rewrite Hupd|];
    destruct (database.File_ID f =? id'); simpl; by rewrite ?Hf.
Qed.

(** Once an administrator has edited a file, the lookup of its id returns
    the record the form gave (malformed numbers read as 0), the files of
    other ids are as before, and the file endpoints decide by the new
    group: a session whose user is not a member of it is answered 403,
    whatever its access to the file's former group. *)
Theorem AdminEditFile_then_gate (PathEscape Base : string → string)
    db session r fileID old :
  http.Method r = http.MethodPost →
  handlers.isAdmin db session = true →
  strconv.Atoi (http.FormValue r "id") = (fileID, nil) →
  database.GetFileByID db fileID = Ok old →
  let out := handlers.AdminEditFile None db session r in
  let groupID := (strconv.Atoi (http.FormValue r "group_id")).1 in
  database.GetFileByID out.2 fileID
    = Ok {| database.File_ID := fileID;
            database.File_Name := http.FormValue r "name";
            database.File_FilePath := http.FormValue r "file_path";
            database.File_GroupID := groupID;
            database.File_Description := http.FormValue r "description" |} ∧
  (∀ id', id' ≠ fileID →
          database.GetFileByID out.2 id' = database.GetFileByID db id') ∧
  (∀ fs session' r',
     http.FormValue r' "id" = http.FormValue r "id" →
     database.faults db database.mUserHasAccessToGroup = None →
     (auth.UserID session', groupID) ∉ database.user_groups db →
     (handlers.DownloadFile PathEscape Base out.2 fs session' r').1
       = http.Error "Access denied" 403 ∧
     (handlers.ServeWorldFile out.2 fs session' r').1
       = http.Error "Access denied" 403).
Proof.
  intros Hpost Hadmin Hid Hold out groupID. subst out groupID.
  unfold handlers.AdminEditFile. rewrite Hpost, Hadmin, Hid. simpl.
  destruct (strconv.Atoi (http.FormValue r "group_id")) as [groupID err]. simpl.
  set (new := {| database.File_ID := fileID;
                 database.File_Name := http.FormValue r "name";
                 database.File_FilePath := http.FormValue r "file_path";
                 database.File_GroupID := groupID;
                 database.File_Description := http.FormValue r "description" |}).
  set (db' := database.with_files db _).
  assert (∀ id', database.GetFileByID db' id'
                 = if id' =? fileID then Ok new else database.GetFileByID db id')
    as Hlookup.
  { intros id'. revert Hold. unfold database.GetFileByID. subst db'. simpl.
    destruct (database.faults db database.mGetFileByID); [discriminate|].
    rewrite (find_File_ID_map _ fileID
               (λ f, {| database.File_ID := database.File_ID f;
                        database.File_Name := http.FormValue r "name";
                        database.File_FilePath := http.FormValue r "file_path";
                        database.File_GroupID := groupID;
                        database.File_Description :=
                          http.FormValue r "description" |})) by done.
    destruct (Z.eqb_spec id' fileID) as [->|Hne].
    - destruct (find _ _) as [f|] eqn:Hfind; [|discriminate]. intros _. simpl.
      apply find_some in Hfind as [_ Hf]. rewrite Hf.
      apply Z.eqb_eq in Hf. subst new. by rewrite Hf.
    - intros _. destruct (find _ _) as [f|] eqn:Hfind; [|done]. simpl.
      apply find_some in Hfind as [_ Hf%Z.eqb_eq].
      destruct (Z.eqb_spec (database.File_ID f) fileID); [congruence | done]. }
  split; [by rewrite Hlookup, Z.eqb_refl|]. split.
  - intros id' Hne. rewrite Hlookup. by destruct (Z.eqb_spec id' fileID).
  - intros fs session' r' Hsame Hok Hnot.
    assert (database.UserHasAccessToGroup db' (auth.UserID session') groupID
            = (false, nil)) as Hcheck.
    { destruct (database.UserHasAccessToGroup db' (auth.UserID session') groupID)
        as [b e] eqn:Hc.
      assert (e = nil) as ->.
      { revert Hc. unfold database.UserHasAccessToGroup. subst db'. simpl.
        rewrite Hok. by intros [= _ <-]. }
      destruct b; [|done]. exfalso. apply Hnot.
      apply (UserHasAccessToGroup_true db'). by rewrite Hc. }
    unfold handlers.DownloadFile, handlers.ServeWorldFile.
    rewrite Hsame, Hid, Hlookup, Z.eqb_refl. simpl. by rewrite Hcheck.
Qed.

Lemma AdminEditFile_then_gate_witness :
  http.StatusCode
    (handlers.DownloadFile (λ n, n) (λ n, n) sample.db sample.fs
       sample.user1Session (sample.get "2")).1 = 200 ∧
  (handlers.DownloadFile (λ n, n) (λ n, n)
     (handlers.AdminEditFile None sample.db sample.adminSession
        (sample.post [("id", "2"); ("name", "bashrc");
                      ("file_path", "/home/user/.bashrc"); ("group_id", "1");
                      ("description", "")])).2
     sample.fs sample.user1Session (sample.get "2")).1
  = http.Error "Access denied" 403.
Proof.
  split; [reflexivity|].
  destruct (AdminEditFile_then_gate (λ n, n) (λ n, n) sample.db sample.adminSession
              (sample.post [("id", "2"); ("name", "bashrc");
                            ("file_path", "/home/user/.bashrc"); ("group_id", "1");
                            ("description", "")])
              2 sample.bashrc eq_refl eq_refl eq_refl eq_refl)
    as (_ & _ & Hgate).
  destruct (Hgate sample.fs sample.user1Session (sample.get "2") eq_refl eq_refl)
    as [Hdenied _]; [|exact Hdenied].
  vm_compute. intros Hin.
  repeat (apply elem_of_cons in Hin as [[=]|Hin]). by apply elem_of_nil in Hin.
Defined.

(** Deleting a group id that no group bears and no file references, as
    happens for a malformed id, which is read as 0, is reported as a
    success although it leaves every table as it was. *)
Theorem AdminDeleteGroup_unknown_id db session r :
  http.Method r = http.MethodPost →
  handlers.isAdmin db session = true →
  database.faults db database.mGetGroupFileCount = None →
  database.faults db database.mDeleteGroup = None →
  let groupID := (strconv.Atoi (http.FormValue r "id")).1 in
  (∀ g, g ∈ database.groups db → database.Group_ID g ≠ groupID) →
  (∀ f, f ∈ database.files db → database.File_GroupID f ≠ groupID) →
  let out := handlers.AdminDeleteGroup db session r in
  out.1.1 = http.Redirect "/admin/groups?success=Group+deleted+successfully" 303 ∧
  database.groups out.1.2 = database.groups db ∧
  database.users out.1.2 = database.users db ∧
  database.user_groups out.1.2 = database.user_groups db ∧
  database.files out.1.2 = database.files db.
Proof.
  intros Hpost Hadmin Hcount Hdelete groupID Hgroups Hfiles out. subst out.
  rewrite (AdminDeleteGroup_proceeds db session r Hpost Hadmin).
  - fold groupID. unfold database.DeleteGroup. rewrite Hdelete. simpl.
    split; [done|]. split; [|done].
    clear -Hgroups. induction (database.groups db) as [|g gs IH]; [done|].
    rewrite filter_cons_True by (apply Hgroups, list_elem_of_here).
    f_equal. apply IH. intros g' Hg'. by apply Hgroups, list_elem_of_further.
  - fold groupID. unfold database.GetGroupFileCount. rewrite Hcount. simpl.
    assert (database.COUNT (λ f, database.File_GroupID f =? groupID)
              (database.files db) = 0) as ->; [|done].
    apply COUNT_zero. intros f Hin. by apply Z.eqb_neq, Hfiles.
Qed.

Lemma AdminDeleteGroup_unknown_id_witness :
  strconv.Atoi "two" = (0, Some strconv.ErrSyntax) ∧
  (handlers.AdminDeleteGroup sample.db sample.adminSession
     (sample.post [("id", "two")])).1.1
  = http.Redirect "/admin/groups?success=Group+deleted+successfully" 303 ∧
  database.groups
    (handlers.AdminDeleteGroup sample.db sample.adminSession
       (sample.post [("id", "two")])).1.2
  = database.groups sample.db.
Proof.
  split; [reflexivity|].
  destruct (AdminDeleteGroup_unknown_id sample.db sample.adminSession
              (sample.post [("id", "two")]) eq_refl eq_refl eq_refl eq_refl)
    as (Hw & Hgroups & _).
  - intros g Hg Hid. vm_compute in Hg, Hid.
    repeat (apply elem_of_cons in Hg as [->|Hg]; [discriminate Hid|]).
    by apply elem_of_nil in Hg.
  - intros f Hf Hid. vm_compute in Hf, Hid.
    repeat (apply elem_of_cons in Hf as [->|Hf]; [discriminate Hid|]).
    by apply elem_of_nil in Hf.
  - split; [exact Hw | exact Hgroups].
Defined.

End Mutations.


(** ** Tokens *)

Section Tokens.

Local Open Scope N_scope.

(** A property of the numbers below 256, or of pairs of them, that a
    boolean test decides holds when the test passes on all of them. *)
Lemma below_256 (P : N → bool) :
  forallb P (map N.of_nat (seq 0 256)) = true →
  ∀ n, n < 256 → P n = true.
Proof.
  intros Hall n Hn. rewrite forallb_forall in Hall. apply Hall.
  apply in_map_iff. exists (N.to_nat n). split; [apply N2Nat.id|].
  apply in_seq. lia.
Qed.

Lemma below_256_pairs (P : N → N → bool) :
  forallb (λ n, forallb (P n) (map N.of_nat (seq 0 256)))
          (map N.of_nat (seq 0 256)) = true →
  ∀ n m, n < 256 → m < 256 → P n m = true.
Proof.
  intros Hall n m Hn Hm.
  apply (below_256 (P n)); [|done].
  by apply (below_256 (λ n, forallb (P n) (map N.of_nat (seq 0 256)))).
Qed.

Lemma bits_below x : base64.bits x < 256.
Proof. unfold base64.bits. pose proof (Byte.to_N_bounded x). lia. Qed.

Lemma bits_inj x y : base64.bits x = base64.bits y → x = y.
Proof.
  unfold base64.bits. intros Heq.
  assert (Some x = Some y) as [= ->]; [|done].
  by rewrite <- !Byte.of_to_N, Heq.
Qed.

(** The alphabet has 64 distinct characters, none of them the padding. *)
Lemma enc_inj v w :
  v < 64 → w < 64 → base64.enc v = base64.enc w → v = w.
Proof.
  intros Hv Hw Heq.
  assert ((if (v <? 64) && (w <? 64)
           then implb (Ascii.eqb (base64.enc v) (base64.enc w)) (v =? w)
           else true) = true) as Htest.
  { apply (below_256_pairs
             (λ v w, if (v <? 64) && (w <? 64)
                     then implb (Ascii.eqb (base64.enc v) (base64.enc w)) (v =? w)
                     else true)); [by vm_compute | lia..]. }
  rewrite (proj2 (N.ltb_lt _ _) Hv), (proj2 (N.ltb_lt _ _) Hw) in Htest.
  rewrite Heq, Ascii.eqb_refl in Htest. by apply N.eqb_eq.
Qed.

Lemma enc_not_padding v : v < 64 → base64.enc v ≠ base64.StdPadding.
Proof.
  intros Hv Heq.
  assert ((if v <? 64 then negb (Ascii.eqb (base64.enc v) base64.StdPadding)
           else true) = true) as Htest.
  { apply (below_256 (λ v, if v <? 64
                           then negb (Ascii.eqb (base64.enc v) base64.StdPadding)
                           else true)); [by vm_compute | lia]. }
  rewrite (proj2 (N.ltb_lt _ _) Hv), Heq, Ascii.eqb_refl in Htest. discriminate.
Qed.

(** The four 6-bit values of three bytes, and how they give the bytes
    back. *)
Lemma sextets_below n m :
  n < 256 → m < 256 →
  N.shiftr n 2 < 64 ∧
  N.land (N.lor (N.shiftl n 4) (N.shiftr m 4)) 63 < 64 ∧
  N.land (N.lor (N.shiftl n 2) (N.shiftr m 6)) 63 < 64 ∧
  N.land (N.shiftl n 4) 63 < 64 ∧
  N.land (N.shiftl n 2) 63 < 64 ∧
  N.land n 63 < 64.
Proof.
  intros Hn Hm.
  assert ((N.shiftr n 2 <? 64)
          && (N.land (N.lor (N.shiftl n 4) (N.shiftr m 4)) 63 <? 64)
          && (N.land (N.lor (N.shiftl n 2) (N.shiftr m 6)) 63 <? 64)
          && (N.land (N.shiftl n 4) 63 <? 64)
          && (N.land (N.shiftl n 2) 63 <? 64)
          && (N.land n 63 <? 64) = true) as Htest.
  { apply (below_256_pairs
             (λ n m, (N.shiftr n 2 <? 64)
                     && (N.land (N.lor (N.shiftl n 4) (N.shiftr m 4)) 63 <? 64)
                     && (N.land (N.lor (N.shiftl n 2) (N.shiftr m 6)) 63 <? 64)
                     && (N.land (N.shiftl n 4) 63 <? 64)
                     && (N.land (N.shiftl n 2) 63 <? 64)
                     && (N.land n 63 <? 64))); [by vm_compute | done..]. }
  repeat (apply andb_true_iff in Htest as [Htest ?%N.ltb_lt]).
  apply N.ltb_lt in Htest. done.
Qed.

Lemma sextets_recover n m :
  n < 256 → m < 256 →
  N.lor (N.shiftl (N.shiftr n 2) 2)
        (N.shiftr (N.land (N.lor (N.shiftl n 4) (N.shiftr m 4)) 63) 4) = n ∧
  N.land (N.land (N.lor (N.shiftl n 4) (N.shiftr m 4)) 63) 15 = N.shiftr m 4 ∧
  N.shiftr (N.land (N.lor (N.shiftl n 2) (N.shiftr m 6)) 63) 2 = N.land n 15 ∧
  N.land (N.land (N.lor (N.shiftl n 2) (N.shiftr m 6)) 63) 3 = N.shiftr m 6 ∧
  N.lor (N.shiftl (N.shiftr n 4) 4) (N.land n 15) = n ∧
  N.lor (N.shiftl (N.shiftr n 6) 6) (N.land n 63) = n ∧
  N.shiftr (N.land (N.shiftl n 2) 63) 2 = N.land n 15 ∧
  N.lor (N.shiftl (N.shiftr n 2) 2) (N.shiftr (N.land (N.shiftl n 4) 63) 4) = n.
Proof.
  intros Hn Hm.
  assert ((N.lor (N.shiftl (N.shiftr n 2) 2)
             (N.shiftr (N.land (N.lor (N.shiftl n 4) (N.shiftr m 4)) 63) 4) =? n)
          && (N.land (N.land (N.lor (N.shiftl n 4) (N.shiftr m 4)) 63) 15
              =? N.shiftr m 4)
          && (N.shiftr (N.land (N.lor (N.shiftl n 2) (N.shiftr m 6)) 63) 2
              =? N.land n 15)
          && (N.land (N.land (N.lor (N.shiftl n 2) (N.shiftr m 6)) 63) 3
              =? N.shiftr m 6)
          && (N.lor (N.shiftl (N.shiftr n 4) 4) (N.land n 15) =? n)
          && (N.lor (N.shiftl (N.shiftr n 6) 6) (N.land n 63) =? n)
          && (N.shiftr (N.land (N.shiftl n 2) 63) 2 =? N.land n 15)
          && (N.lor (N.shiftl (N.shiftr n 2) 2)
                (N.shiftr (N.land (N.shiftl n 4) 63) 4) =? n) = true) as Htest.
  { apply (below_256_pairs
             (λ n m,
                (N.lor (N.shiftl (N.shiftr n 2) 2)
                   (N.shiftr (N.land (N.lor (N.shiftl n 4) (N.shiftr m 4)) 63) 4)
                 =? n)
                && (N.land (N.land (N.lor (N.shiftl n 4) (N.shiftr m 4)) 63) 15
                    =? N.shiftr m 4)
                && (N.shiftr (N.land (N.lor (N.shiftl n 2) (N.shiftr m 6)) 63) 2
                    =? N.land n 15)
                && (N.land (N.land (N.lor (N.shiftl n 2) (N.shiftr m 6)) 63) 3
                    =? N.shiftr m 6)
                && (N.lor (N.shiftl (N.shiftr n 4) 4) (N.land n 15) =? n)
                && (N.lor (N.shiftl (N.shiftr n 6) 6) (N.land n 63) =? n)
                && (N.shiftr (N.land (N.shiftl n 2) 63) 2 =? N.land n 15)
                && (N.lor (N.shiftl (N.shiftr n 2) 2)
                      (N.shiftr (N.land (N.shiftl n 4) 63) 4) =? n)));
      [by vm_compute | done..]. }
  repeat (apply andb_true_iff in Htest as [Htest ?%N.eqb_eq]).
  apply N.eqb_eq in Htest. done.
Qed.

Lemma three_bytes_inj n m k n' m' k' :
  n < 256 → m < 256 → k < 256 → n' < 256 → m' < 256 → k' < 256 →
  N.shiftr n 2 = N.shiftr n' 2 →
  N.land (N.lor (N.shiftl n 4) (N.shiftr m 4)) 63
  = N.land (N.lor (N.shiftl n' 4) (N.shiftr m' 4)) 63 →
  N.land (N.lor (N.shiftl m 2) (N.shiftr k 6)) 63
  = N.land (N.lor (N.shiftl m' 2) (N.shiftr k' 6)) 63 →
  N.land k 63 = N.land k' 63 →
  n = n' ∧ m = m' ∧ k = k'.
Proof.
  intros Hn Hm Hk Hn' Hm' Hk' E1 E2 E3 E4.
  destruct (sextets_recover n m Hn Hm) as (Rn & Rm_hi & _ & _ & _).
  destruct (sextets_recover n' m' Hn' Hm') as (Rn' & Rm_hi' & _ & _ & _).
  destruct (sextets_recover m k Hm Hk) as (_ & _ & Rm_lo & Rk_hi & Rm & _).
  destruct (sextets_recover m' k' Hm' Hk') as (_ & _ & Rm_lo' & Rk_hi' & Rm' & _).
  destruct (sextets_recover k k Hk Hk) as (_ & _ & _ & _ & _ & Rk & _).
  destruct (sextets_recover k' k' Hk' Hk') as (_ & _ & _ & _ & _ & Rk' & _).
  split; [|split].
  - by rewrite <- Rn, <- Rn', E1, E2.
  - by rewrite <- Rm, <- Rm', <- Rm_hi, <- Rm_hi', <- Rm_lo, <- Rm_lo', E2, E3.
  - by rewrite <- Rk, <- Rk', <- Rk_hi, <- Rk_hi', E3, E4.
Qed.

Lemma two_bytes_inj n m n' m' :
  n < 256 → m < 256 → n' < 256 → m' < 256 →
  N.shiftr n 2 = N.shiftr n' 2 →
  N.land (N.lor (N.shiftl n 4) (N.shiftr m 4)) 63
  = N.land (N.lor (N.shiftl n' 4) (N.shiftr m' 4)) 63 →
  N.land (N.shiftl m 2) 63 = N.land (N.shiftl m' 2) 63 →
  n = n' ∧ m = m'.
Proof.
  intros Hn Hm Hn' Hm' E1 E2 E3.
  destruct (sextets_recover n m Hn Hm) as (Rn & Rm_hi & _).
  destruct (sextets_recover n' m' Hn' Hm') as (Rn' & Rm_hi' & _).
  destruct (sextets_recover m m Hm Hm) as (_ & _ & _ & _ & Rm & _ & Rm_lo & _).
  destruct (sextets_recover m' m' Hm' Hm') as (_ & _ & _ & _ & Rm' & _ & Rm_lo' & _).
  split.
  - by rewrite <- Rn, <- Rn', E1, E2.
  - by rewrite <- Rm, <- Rm', <- Rm_hi, <- Rm_hi', <- Rm_lo, <- Rm_lo', E2, E3.
Qed.

Lemma one_byte_inj n n' :
  n < 256 → n' < 256 →
  N.shiftr n 2 = N.shiftr n' 2 →
  N.land (N.shiftl n 4) 63 = N.land (N.shiftl n' 4) 63 →
  n = n'.
Proof.
  intros Hn Hn' E1 E2.
  destruct (sextets_recover n n Hn Hn) as (_ & _ & _ & _ & _ & _ & _ & Rn).
  destruct (sextets_recover n' n' Hn' Hn') as (_ & _ & _ & _ & _ & _ & _ & Rn').
  by rewrite <- Rn, <- Rn', E1, E2.
Qed.

Lemma String_inj c c' (s s' : string) :
  String c s = String c' s' → c = c' ∧ s = s'.
Proof. by intros [= -> ->]. Qed.

Lemma Encode_inj_bounded (n : nat) (a b : list byte) :
  (length a ≤ n)%nat → base64.Encode a = base64.Encode b → a = b.
Proof.
  revert a b. induction n as [|n IH]; intros a b Hlen Heq.
  { destruct a; [|simpl in Hlen; lia].
    by destruct b as [|x [|y [|z rb]]]. }
  destruct a as [|x [|y [|z ra]]]; destruct b as [|x' [|y' [|z' rb]]];
    try discriminate Heq; try done;
    cbn [base64.Encode] in Heq;
    apply String_inj in Heq as [H1 Heq]; apply String_inj in Heq as [H2 Heq];
    apply String_inj in Heq as [H3 Heq]; apply String_inj in Heq as [H4 Hrest];
    pose proof (bits_below x) as Bx; pose proof (bits_below x') as Bx';
    try pose proof (bits_below y) as By; try pose proof (bits_below y') as By';
    try pose proof (bits_below z) as Bz; try pose proof (bits_below z') as Bz'.
  - (* one byte, one byte *)
    destruct (sextets_below _ _ Bx Bx) as (? & _ & _ & ? & _).
    destruct (sextets_below _ _ Bx' Bx') as (? & _ & _ & ? & _).
    apply enc_inj in H1, H2; try done.
    by rewrite (bits_inj x x' (one_byte_inj _ _ Bx Bx' H1 H2)).
  - (* one byte, two bytes *)
    destruct (sextets_below _ _ By' By') as (_ & _ & _ & _ & ? & _).
    symmetry in H3. by apply enc_not_padding in H3.
  - (* one byte, three or more *)
    destruct (sextets_below _ _ By' Bz') as (_ & _ & ? & _).
    symmetry in H3. by apply enc_not_padding in H3.
  - (* two bytes, one byte *)
    destruct (sextets_below _ _ By By) as (_ & _ & _ & _ & ? & _).
    by apply enc_not_padding in H3.
  - (* two bytes, two bytes *)
    destruct (sextets_below _ _ Bx By) as (? & ? & _).
    destruct (sextets_below _ _ Bx' By') as (? & ? & _).
    destruct (sextets_below _ _ By By) as (_ & _ & _ & _ & ? & _).
    destruct (sextets_below _ _ By' By') as (_ & _ & _ & _ & ? & _).
    apply enc_inj in H1, H2, H3; try done.
    destruct (two_bytes_inj _ _ _ _ Bx By Bx' By' H1 H2 H3) as [Ex Ey].
    by rewrite (bits_inj _ _ Ex), (bits_inj _ _ Ey).
  - (* two bytes, three or more *)
    destruct (sextets_below _ _ Bz' Bz') as (_ & _ & _ & _ & _ & ?).
    symmetry in H4. by apply enc_not_padding in H4.
  - (* three or more, one byte *)
    destruct (sextets_below _ _ By Bz) as (_ & _ & ? & _).
    by apply enc_not_padding in H3.
  - (* three or more, two bytes *)
    destruct (sextets_below _ _ Bz Bz) as (_ & _ & _ & _ & _ & ?).
    by apply enc_not_padding in H4.
  - (* three or more on both sides *)
    destruct (sextets_below _ _ Bx By) as (? & ? & _).
    destruct (sextets_below _ _ Bx' By') as (? & ? & _).
    destruct (sextets_below _ _ By Bz) as (_ & _ & ? & _).
    destruct (sextets_below _ _ By' Bz') as (_ & _ & ? & _).
    destruct (sextets_below _ _ Bz Bz) as (_ & _ & _ & _ & _ & ?).
    destruct (sextets_below _ _ Bz' Bz') as (_ & _ & _ & _ & _ & ?).
    apply enc_inj in H1, H2, H3, H4; try done.
    destruct (three_bytes_inj _ _ _ _ _ _ Bx By Bz Bx' By' Bz' H1 H2 H3 H4)
      as (Ex & Ey & Ez).
    rewrite (bits_inj _ _ Ex), (bits_inj _ _ Ey), (bits_inj _ _ Ez).
    do 3 f_equal. apply IH; [simpl in Hlen; lia | done].
Qed.

Lemma EncodeToString_inj (a b : list byte) :
  base64.EncodeToString a = base64.EncodeToString b → a = b.
Proof. apply (Encode_inj_bounded (length a)). lia. Qed.

(** [Create] displaces a session of the store only when the random source
    repeats the bytes of that session's token: different bytes give a
    different token, so the session stored under the encoding of any
    other byte string is still there afterwards, unchanged. *)
Theorem Create_keeps_other_sessions (s : gmap string auth.Session) src now
    userID username groupIDs tok s' src' token old :
  auth.Create s src now userID username groupIDs = (Ok tok, s', src') →
  s !! base64.EncodeToString token = Some old →
  token ≠ map (rand.stream src) (seq 0 32) →
  base64.EncodeToString token ≠ tok ∧
  s' !! base64.EncodeToString token = Some old.
Proof.
  intros Hcreate Hold Hfresh. revert Hcreate. unfold auth.Create, rand.Read.
  destruct (rand.available src); [|discriminate]. intros [= <- <- _].
  assert (base64.EncodeToString token
          ≠ base64.EncodeToString (map (rand.stream src) (seq 0 32))) as Hne.
  { by intros ?%EncodeToString_inj. }
  split; [done|]. by rewrite lookup_insert_ne.
Qed.

Lemma Create_keeps_other_sessions_witness :
  (auth.Create {[ "AA==" := sample.adminSession ]} sample.src 0%Z 2%Z "user1"
     [2%Z]).1.2
    !! "AA==" = Some sample.adminSession.
Proof.
  destruct (Create_keeps_other_sessions {[ "AA==" := sample.adminSession ]}
              sample.src 0%Z 2%Z "user1" [2%Z]
              _ _ (auth.Create {[ "AA==" := sample.adminSession ]}
                     sample.src 0%Z 2%Z "user1" [2%Z]).2
              [x00%byte] sample.adminSession eq_refl) as [_ Hkept].
  - reflexivity.
  - discriminate.
  - exact Hkept.
Defined.

End Tokens.


(** ** The admin page and the templates *)

Section AdminPage.

Implicit Types (db : database.DB) (session : auth.Session).

(** The admin page grants access only when a group id of the session's
    snapshot is the id of a group of the table named "admins" and the
    user is, at that moment, still a member of that group in
    [user_groups], the access check succeeding: exactly when such a group
    is among the rows that the page's read of the groups delivered. When
    that read succeeds the rows are the whole table, and whoever passes
    the page passes [isAdmin]; when it fails part-way the page can grant
    access on the rows read so far while [isAdmin] refuses. [isAdmin]
    does not look at [user_groups] at all: it answers the same after any
    change of the memberships. *)
Theorem AdminPage_and_isAdmin read db session :
  (handlers.AdminPage_hasAdminAccess read db session = true ↔
   ∃ i groupID g,
     auth.GroupIDs session !! i = Some groupID ∧
     database.faults db database.mUserHasAccessToGroup = None ∧
     (auth.UserID session, groupID) ∈ database.user_groups db ∧
     g ∈ (database.GetAllGroupsRows (read i) db).1 ∧
     database.Group_ID g = groupID ∧ database.Group_Name g = "admins") ∧
  (handlers.AdminPage_hasAdminAccess read db session = true →
   ∃ groupID g,
     groupID ∈ auth.GroupIDs session ∧
     (auth.UserID session, groupID) ∈ database.user_groups db ∧
     g ∈ database.groups db ∧
     database.Group_ID g = groupID ∧ database.Group_Name g = "admins") ∧
  (database.faults db database.mGetAllGroups = None →
   (∀ n, database.GetAllGroupsRows n db = database.GetAllGroups db) ∧
   (handlers.AdminPage_hasAdminAccess read db session = true →
    handlers.isAdmin db session = true)) ∧
  (∀ db', database.groups db' = database.groups db →
          database.faults db' = database.faults db →
          handlers.isAdmin db' session = handlers.isAdmin db session).
Proof.
  assert (∀ n g, g ∈ (database.GetAllGroupsRows n db).1 → g ∈ database.groups db)
    as Hrows.
  { intros n g. unfold database.GetAllGroupsRows.
    destruct (database.faults db database.mGetAllGroups); simpl.
    - intros (i & Hi%list_elem_of_lookup_2 & _)%elem_of_take.
      by rewrite merge_sort_Permutation in Hi.
    - by rewrite merge_sort_Permutation. }
  assert (handlers.AdminPage_hasAdminAccess read db session = true ↔
          ∃ i groupID g,
            auth.GroupIDs session !! i = Some groupID ∧
            database.faults db database.mUserHasAccessToGroup = None ∧
            (auth.UserID session, groupID) ∈ database.user_groups db ∧
            g ∈ (database.GetAllGroupsRows (read i) db).1 ∧
            database.Group_ID g = groupID ∧ database.Group_Name g = "admins")
    as Hiff.
  { unfold handlers.AdminPage_hasAdminAccess. rewrite existsb_exists. split.
    - intros ([i groupID] & Hin & [Hacc Hadm]%andb_true_iff).
      apply list_elem_of_In, elem_of_lookup_imap in Hin as (j & x & [= -> ->] & Hx).
      apply UserHasAccessToGroup_true in Hacc as [Hok Hmember].
      apply existsb_exists in Hadm as (g & Hg & [Hid Hname]%andb_true_iff).
      exists j, x, g. repeat split; try done.
      + by apply list_elem_of_In.
      + by apply Z.eqb_eq.
      + by apply String.eqb_eq.
    - intros (i & groupID & g & Hin & Hok & Hmember & Hg & Hid & Hname).
      exists (i, groupID). split.
      { apply list_elem_of_In, elem_of_lookup_imap. by exists i, groupID. }
      apply andb_true_iff. split; [by apply UserHasAccessToGroup_true|].
      apply existsb_exists. exists g. split; [by apply list_elem_of_In|].
      apply andb_true_iff. split; [by apply Z.eqb_eq | by apply String.eqb_eq]. }
  split; [exact Hiff|]. split; [|split].
  - intros (i & groupID & g & Hin & _ & Hmember & Hg & Hid & Hname)%Hiff.
    exists groupID, g. repeat split; try done.
    + by apply list_elem_of_lookup_2 in Hin.
    + by apply Hrows in Hg.
  - intros Hok.
    assert (∀ n, database.GetAllGroupsRows n db = database.GetAllGroups db)
      as Hsame.
    { intros n. unfold database.GetAllGroupsRows, database.GetAllGroups.
      by rewrite Hok. }
    split; [exact Hsame|].
    intros (i & groupID & g & Hin & _ & _ & Hg & Hid & Hname)%Hiff.
    apply isAdmin_true. exists groupID, g. rewrite <- (Hsame (read i)).
    repeat split; try done. by apply list_elem_of_lookup_2 in Hin.
  - intros db' Hgroups Hfaults.
    unfold handlers.isAdmin, database.GetAllGroups. by rewrite Hgroups, Hfaults.
Qed.

(** Two sessions on the sample database. That of a user taken out of
    [admins] since its login: the admin page refuses it and [isAdmin],
    which guards the endpoints that change the database, accepts it. And
    that of the administrator while the read of the groups fails after
    one row: the admin page grants access on that row and [isAdmin]
    refuses. *)
Lemma AdminPage_and_isAdmin_witness :
  let demoted :=
    {| auth.UserID := 2; auth.Username := "user1"; auth.GroupIDs := [1];
       auth.Expires := 24 * time.Hour |} in
  let broken := sample.failing database.mGetAllGroups sample.db in
  (handlers.AdminPage_hasAdminAccess (λ _, 0%nat) sample.db demoted = false ∧
   handlers.isAdmin sample.db demoted
   = handlers.isAdmin sample.db_user1_moved demoted ∧
   handlers.isAdmin sample.db_user1_moved demoted = true) ∧
  (handlers.AdminPage_hasAdminAccess (λ _, 1%nat) broken sample.adminSession = true ∧
   handlers.isAdmin broken sample.adminSession = false) ∧
  (handlers.AdminPage_hasAdminAccess (λ _, 0%nat) sample.db sample.adminSession
   = true →
   handlers.isAdmin sample.db sample.adminSession = true).
Proof.
  cbn zeta. split; [|split].
  - split; [reflexivity|]. split; [|reflexivity].
    destruct (AdminPage_and_isAdmin (λ _, 0%nat) sample.db_user1_moved
                {| auth.UserID := 2; auth.Username := "user1";
                   auth.GroupIDs := [1]; auth.Expires := 24 * time.Hour |})
      as (_ & _ & _ & Hsame).
    by apply Hsame.
  - destruct (AdminPage_and_isAdmin (λ _, 1%nat)
                (sample.failing database.mGetAllGroups sample.db)
                sample.adminSession) as (Hiff & _).
    split; [|reflexivity]. apply Hiff. exists 0%nat, 1, sample.admins.
    split; [reflexivity|]. split; [reflexivity|].
    split; [apply list_elem_of_here|]. split; [|done].
    vm_compute. apply list_elem_of_here.
  - destruct (AdminPage_and_isAdmin (λ _, 0%nat) sample.db sample.adminSession)
      as (_ & _ & Hok & _).
    destruct (Hok eq_refl) as [_ Himp]. exact Himp.
Defined.







End AdminPage.
